(** * Link shortener: repository, service and HTTP surface

    A shallow embedding of the server of the link shortener
    (packages/server/src): the Typesaurus collection [shortLinks], the
    repository over it, the service with its short-code generator, the DTO
    validation run by the global [ValidationPipe] and the three routes of the
    controller.  Asynchronous code is written in a state-and-exception monad
    over a [World]; the detached click-counter update of [getLongUrl] is a
    pending task of that world which the event loop settles later. *)

From Stdlib Require Import ZArith NArith Arith List String Ascii Bool Lia.
Import ListNotations.

Local Open Scope string_scope.

(* ================================================================== *)
(** * The JavaScript runtime pieces the server relies on *)
(* ================================================================== *)

Module Js.

(** The double-quote character, for template literals that contain it. *)
Definition dquote : string := String (ascii_of_nat 34) EmptyString.

(** [String.prototype.substring(start, end)]: both indices are clamped to
    the length of the string and swapped when they come in the wrong
    order. *)
Definition substring (start stop : nat) (s : string) : string :=
  let len := String.length s in
  let a := Nat.min start len in
  let b := Nat.min stop len in
  let from := Nat.min a b in
  let upto := Nat.max a b in
  String.substring from (upto - from) s.

(** Truthiness of an optional string: [undefined] and the empty string
    are falsy. *)
Definition truthy (v : option string) : bool :=
  match v with
  | None => false
  | Some EmptyString => false
  | Some (String _ _) => true
  end.

(** ** Numbers drawn by [Math.random()]

    [Math.random()] returns a double in the interval [0, 1).  Such a draw
    is represented by its numerator [k] over [2^53]: the value is
    [k / 2^53] with [k < 2^53]. *)
Definition precision : N := 2 ^ 53.

Definition Draw : Type := N.

(** Coerces any number into the numerator of a draw. *)
Definition toDraw (k : N) : Draw := (k mod precision)%N.

(** The digits of radix 36, in the order [Number.prototype.toString]
    uses them. *)
Definition radix36 : string := "0123456789abcdefghijklmnopqrstuvwxyz".

Definition digitChar (d : N) : ascii :=
  match String.get (N.to_nat d) radix36 with
  | Some c => c
  | None => "0"%char
  end.

(** Fraction digits of [num / 2^53] in radix 36: multiply by the radix,
    emit the integer part, go on with the remainder until it is zero.  A
    multiple of [2^-53] has a finite expansion in radix 36, so the loop
    ends; an engine may stop earlier, at the precision of the double. *)
Fixpoint fractionDigits (fuel : nat) (num : N) : list N :=
  match fuel with
  | O => []
  | S fuel' =>
      if (num =? 0)%N then []
      else
        let shifted := (36 * num)%N in
        (shifted / precision)%N
          :: fractionDigits fuel' (shifted mod precision)%N
  end.

(** Enough iterations for every multiple of [2^-53]: [36^27] is a
    multiple of [2^53]. *)
Definition maxFractionDigits : nat := 27.

(** [x.toString(36)] for a draw [x]: the integer part is [0]; the radix
    point and the fraction digits follow unless the fraction is zero.
    The digits are those of the exact expansion.  An engine prints the
    shortest digits that identify the double and rounds the last one, so
    it prints this string for numbers whose expansion is already that
    short, such as one half, and fewer digits for others. *)
Definition toString36 (x : Draw) : string :=
  if (x =? 0)%N then "0"
  else
    "0." ++ string_of_list_ascii
              (map digitChar (fractionDigits maxFractionDigits x)).

End Js.

(* ================================================================== *)
(** * Data model (lib/db.ts) and the world the server runs in *)
(* ================================================================== *)

(** The [ShortLink] document.  [createdAt] is a [Date], kept as milliseconds
    since the epoch; [clicks] is a number that only ever holds integers,
    taken here without an upper bound. *)
Record ShortLink : Type := mkShortLink {
  longUrl : string;
  shortCode : string;
  createdAt : Z;
  clicks : Z;
  creatorIp : option string
}.

(** Identifier of a document of the collection. *)
Definition DocId : Type := nat.

(** A stored document: its reference and its data. *)
Record Doc : Type := mkDoc {
  ref_id : DocId;
  data : ShortLink
}.

(** Calls that reach the document store. *)
Inductive StoreOp : Type :=
| OpAdd (d : ShortLink)
| OpQuery (code : string)
| OpGet (id : DocId)
| OpIncrement (id : DocId) (by_ : Z).

(** Exceptions the server raises. *)
Inductive Exception : Type :=
| BadRequestException (messages : list string)
| ConflictException (message : string)
| NotFoundException (message : string)
| StoreRejection (message : string).

(** HTTP status of an exception, as NestJS maps it. *)
Definition getStatus (e : Exception) : Z :=
  match e with
  | BadRequestException _ => 400
  | ConflictException _ => 409
  | NotFoundException _ => 404
  | StoreRejection _ => 500
  end.

(** Work detached from the request that started it. *)
Inductive Task : Type :=
| IncrementClicksTask (code : string).

(** Everything the server can read or change.
    - [docs]: the [shortLinks] collection in the order queries return it;
      [nextId] is the identifier the store assigns next;
    - [oplog]: the store calls issued so far;
    - [clock]: what [new Date()] returns;
    - [entropy], [drawn]: the numbers [Math.random()] returns and how many
      of them were taken;
    - [baseUrl]: the configuration entry [env.linkShortener.url];
    - [pending]: detached tasks not yet settled;
    - [console]: lines written with [console.error]. *)
Record World : Type := mkWorld {
  docs : list Doc;
  nextId : DocId;
  oplog : list StoreOp;
  clock : Z;
  entropy : nat -> N;
  drawn : nat;
  baseUrl : string;
  pending : list Task;
  console : list string
}.

Definition set_docs (ds : list Doc) (w : World) : World :=
  mkWorld ds (nextId w) (oplog w) (clock w) (entropy w) (drawn w)
          (baseUrl w) (pending w) (console w).

Definition set_nextId (n : DocId) (w : World) : World :=
  mkWorld (docs w) n (oplog w) (clock w) (entropy w) (drawn w)
          (baseUrl w) (pending w) (console w).

Definition record_op (o : StoreOp) (w : World) : World :=
  mkWorld (docs w) (nextId w) (oplog w ++ [o]) (clock w) (entropy w) (drawn w)
          (baseUrl w) (pending w) (console w).

Definition set_drawn (n : nat) (w : World) : World :=
  mkWorld (docs w) (nextId w) (oplog w) (clock w) (entropy w) n
          (baseUrl w) (pending w) (console w).

Definition set_pending (ts : list Task) (w : World) : World :=
  mkWorld (docs w) (nextId w) (oplog w) (clock w) (entropy w) (drawn w)
          (baseUrl w) ts (console w).

Definition write_console (line : string) (w : World) : World :=
  mkWorld (docs w) (nextId w) (oplog w) (clock w) (entropy w) (drawn w)
          (baseUrl w) (pending w) (console w ++ [line]).

(* ================================================================== *)
(** * The monad of asynchronous server code *)
(* ================================================================== *)

Inductive Result (A : Type) : Type :=
| Ok (a : A)
| Err (e : Exception).

Arguments Ok {A} a.
Arguments Err {A} e.

(** A computation takes the world, returns a value or throws, and leaves a
    world behind. *)
Definition M (A : Type) : Type := World -> Result A * World.

Definition ret {A : Type} (a : A) : M A := fun w => (Ok a, w).

Definition throw {A : Type} (e : Exception) : M A := fun w => (Err e, w).

Definition bind {A B : Type} (m : M A) (k : A -> M B) : M B :=
  fun w =>
    match m w with
    | (Ok a, w') => k a w'
    | (Err e, w') => (Err e, w')
    end.

Notation "x <- m ;; k" := (bind m (fun x => k))
  (at level 61, m at next level, right associativity).

Notation "m ;;; k" := (bind m (fun _ => k))
  (at level 61, right associativity).

(** [p.catch(handler)]: a rejection is handed to the handler and the
    resulting promise fulfils. *)
Definition catch (m : M unit) (handler : Exception -> M unit) : M unit :=
  fun w =>
    match m w with
    | (Ok a, w') => (Ok a, w')
    | (Err e, w') => handler e w'
    end.

(** [Math.random()]: takes the next number of the generator. *)
Definition Math_random : M Js.Draw :=
  fun w => (Ok (Js.toDraw (entropy w (drawn w))), set_drawn (S (drawn w)) w).

(** [new Date()]. *)
Definition Date_now : M Z := fun w => (Ok (clock w), w).

(** [configService.get('env.linkShortener.url')]. *)
Definition config_url : M string := fun w => (Ok (baseUrl w), w).

(** Starts a task without awaiting it. *)
Definition detach (t : Task) : M unit :=
  fun w => (Ok tt, set_pending (pending w ++ [t]) w).

(** [console.error(label, err)]. *)
Definition console_error (label : string) (e : Exception) : M unit :=
  fun w =>
    let detail :=
      match e with
      | BadRequestException ms => String.concat ", " ms
      | ConflictException m => m
      | NotFoundException m => m
      | StoreRejection m => m
      end in
    (Ok tt, write_console (label ++ " " ++ detail) w).

(* ================================================================== *)
(** * The Typesaurus collection [db.shortLinks] *)
(* ================================================================== *)

(** The collection is a list of documents in the order a query returns
    them.  The store assigns the identifier of a new document; the model
    takes it from a counter and puts the document last.  Calls awaited on
    the path of a request are taken to resolve.  The update of the click
    counter is the one call whose rejection the server handles, so its
    outcome is an input: *)
Inductive StoreOutcome : Type :=
| Applied
| Rejected (reason : string).

Module Db.

(** Documents whose [shortCode] field equals [code], in collection
    order: [$.field('shortCode').eq(code)]. *)
Definition matching (code : string) (ds : list Doc) : list Doc :=
  filter (fun d => String.eqb (shortCode (data d)) code) ds.

(** [$.increment(n)] on the [clicks] field. *)
Definition increment (n : Z) (s : ShortLink) : ShortLink :=
  mkShortLink (longUrl s) (shortCode s) (createdAt s) (clicks s + n)
              (creatorIp s).

(** The collection after the field transform reached document [id]. *)
Definition incrementAt (id : DocId) (n : Z) (ds : list Doc) : list Doc :=
  map (fun d => if Nat.eqb (ref_id d) id
                then mkDoc (ref_id d) (increment n (data d))
                else d) ds.

(** [db.shortLinks.add(data)]: the store assigns the identifier. *)
Definition add (d : ShortLink) : M Doc :=
  fun w =>
    let doc := mkDoc (nextId w) d in
    (Ok doc,
     record_op (OpAdd d)
       (set_nextId (S (nextId w)) (set_docs (docs w ++ [doc]) w))).

(** [db.shortLinks.query($ => $.field('shortCode').eq(code))]. *)
Definition query (code : string) : M (list Doc) :=
  fun w => (Ok (matching code (docs w)), record_op (OpQuery code) w).

(** [db.shortLinks.get(id)]. *)
Definition get (id : DocId) : M (option Doc) :=
  fun w =>
    (Ok (find (fun d => Nat.eqb (ref_id d) id) (docs w)),
     record_op (OpGet id) w).

(** [db.shortLinks.update(id, $ => ({ clicks: $.increment(n) }))]: one
    server-side transform; the store applies it or rejects the call. *)
Definition updateIncrement (o : StoreOutcome) (id : DocId) (n : Z)
  : M unit :=
  fun w =>
    let issued := record_op (OpIncrement id n) w in
    match o with
    | Applied => (Ok tt, set_docs (incrementAt id n (docs w)) issued)
    | Rejected reason => (Err (StoreRejection reason), issued)
    end.

End Db.

(* ================================================================== *)
(** * LinkShortenerRepository *)
(* ================================================================== *)

Module LinkShortenerRepository.

Definition create (d : ShortLink) : M Doc :=
  doc <- Db.add d ;;
  ret (mkDoc (ref_id doc) d).

Definition findByShortCode (code : string) : M (option ShortLink) :=
  results <- Db.query code ;;
  ret (match results with
       | first :: _ => Some (data first)
       | [] => None
       end).

Definition findById (id : DocId) : M (option ShortLink) :=
  doc <- Db.get id ;;
  ret (match doc with
       | Some d => Some (data d)
       | None => None
       end).

(** The store's answer to the update is the argument [o]. *)
Definition incrementClicks (o : StoreOutcome) (code : string) : M unit :=
  results <- Db.query code ;;
  match results with
  | doc :: _ => Db.updateIncrement o (ref_id doc) 1
  | [] => ret tt
  end.

End LinkShortenerRepository.

(* ================================================================== *)
(** * DTOs and their validation (link-shortener.dto.ts) *)
(* ================================================================== *)

Module CreateShortLinkDto.
Record t : Type := make {
  longUrl : string;
  customAlias : option string
}.
End CreateShortLinkDto.

Module ShortLinkResponseDto.
Record t : Type := make {
  shortCode : string;
  longUrl : string;
  shortUrl : string;
  createdAt : Z;
  clicks : Z
}.

(** A value of the response body. *)
Inductive JsonValue : Type :=
| JString (s : string)
| JDate (millis : Z)
| JNumber (n : Z).

(** The own properties of the object, as it is serialised. *)
Definition properties (r : t) : list (string * JsonValue) :=
  [ ("shortCode", JString (shortCode r));
    ("longUrl", JString (longUrl r));
    ("shortUrl", JString (shortUrl r));
    ("createdAt", JDate (createdAt r));
    ("clicks", JNumber (clicks r)) ].
End ShortLinkResponseDto.

Module Validation.

Definition inRange (lo hi : nat) (c : ascii) : bool :=
  let n := nat_of_ascii c in Nat.leb lo n && Nat.leb n hi.

(** The class [[a-zA-Z0-9-_]]: after the range [0-9] the hyphen and the
    underscore stand for themselves. *)
Definition aliasChar (c : ascii) : bool :=
  inRange 97 122 c || inRange 65 90 c || inRange 48 57 c
  || Nat.eqb (nat_of_ascii c) 45 || Nat.eqb (nat_of_ascii c) 95.

(** [/^[a-zA-Z0-9-_]+$/.test(s)]: one character at least, all of them of
    the class, up to the very end of the string. *)
Definition matchesAlias (s : string) : bool :=
  match s with
  | EmptyString => false
  | String _ _ => forallb aliasChar (list_ascii_of_string s)
  end.

Definition minLength (n : nat) (s : string) : bool :=
  Nat.leb n (String.length s).

Definition maxLength (n : nat) (s : string) : bool :=
  Nat.leb (String.length s) n.

(** One decorator: its message when the check fails. *)
Definition check (passed : bool) (message : string) : list string :=
  if passed then [] else [message].

Section WithIsUrl.

(** validator.js [isURL(value, { require_protocol: true })]. *)
Variable isURL : string -> bool.

(** Constraint violations of a [CreateShortLinkDto].  [@IsOptional()]
    skips the checks of [customAlias] when it is absent; [@IsString()]
    holds of every string.  The list tells which checks fail; the order
    in which class-validator reports them is not modelled. *)
Definition validateCreate (dto : CreateShortLinkDto.t) : list string :=
  check (isURL (CreateShortLinkDto.longUrl dto))
        "Please provide a valid URL with http:// or https://"
  ++ match CreateShortLinkDto.customAlias dto with
     | None => []
     | Some alias =>
         check (minLength 3 alias)
               "Custom alias must be at least 3 characters long"
         ++ check (maxLength 50 alias)
                  "Custom alias must not exceed 50 characters"
         ++ check (matchesAlias alias)
                  ("Custom alias can only contain letters, numbers, "
                   ++ "hyphens, and underscores")
     end.

End WithIsUrl.

(** Constraint violations of a [ShortCodeParamDto], in no particular
    order. *)
Definition validateParam (code : string) : list string :=
  check (minLength 3 code)
        "shortCode must be longer than or equal to 3 characters"
  ++ check (maxLength 50 code)
           "shortCode must be shorter than or equal to 50 characters"
  ++ check (matchesAlias code) "Invalid short code format".

(** The global [ValidationPipe]: any violation rejects the request. *)
Definition pipe (violations : list string) : M unit :=
  match violations with
  | [] => ret tt
  | _ :: _ => throw (BadRequestException violations)
  end.

End Validation.

(* ================================================================== *)
(** * LinkShortenerService *)
(* ================================================================== *)

Module LinkShortenerService.

Import LinkShortenerRepository.

(** [Math.random().toString(36).substring(2, 8)]. *)
Definition generateShortCode : M string :=
  x <- Math_random ;;
  ret (Js.substring 2 8 (Js.toString36 x)).

Definition buildResponse (s : ShortLink) : M ShortLinkResponseDto.t :=
  base <- config_url ;;
  ret (ShortLinkResponseDto.make
         (shortCode s)
         (longUrl s)
         (base ++ "/" ++ shortCode s)
         (createdAt s)
         (clicks s)).

(** [createDto.customAlias || this.generateShortCode()]: the generator
    runs only when the alias is falsy. *)
Definition candidateCode (dto : CreateShortLinkDto.t) : M string :=
  match CreateShortLinkDto.customAlias dto with
  | Some alias =>
      if Js.truthy (Some alias) then ret alias else generateShortCode
  | None => generateShortCode
  end.

Definition conflictMessage (code : string) : string :=
  "Short code " ++ Js.dquote ++ code ++ Js.dquote
  ++ " is already in use. Please choose another alias.".

Definition notFoundRedirectMessage (code : string) : string :=
  "Short link " ++ Js.dquote ++ code ++ Js.dquote
  ++ " not found. Please check the URL and try again.".

Definition notFoundMessage (code : string) : string :=
  "Short link " ++ Js.dquote ++ code ++ Js.dquote ++ " not found.".

Definition createShortLink (dto : CreateShortLinkDto.t)
                           (ip : option string)
  : M ShortLinkResponseDto.t :=
  code <- candidateCode dto ;;
  existing <- findByShortCode code ;;
  match existing with
  | Some _ => throw (ConflictException (conflictMessage code))
  | None =>
      now <- Date_now ;;
      let shortLink :=
        mkShortLink (CreateShortLinkDto.longUrl dto) code now 0 ip in
      created <- create shortLink ;;
      buildResponse (data created)
  end.

(** The counter update is started and not awaited; all of its store
    calls are placed at the moment the task settles. *)
Definition getLongUrl (code : string) : M string :=
  found <- findByShortCode code ;;
  match found with
  | None => throw (NotFoundException (notFoundRedirectMessage code))
  | Some shortLink =>
      detach (IncrementClicksTask code) ;;;
      ret (longUrl shortLink)
  end.

Definition getShortLinkDetails (code : string)
  : M ShortLinkResponseDto.t :=
  found <- findByShortCode code ;;
  match found with
  | None => throw (NotFoundException (notFoundMessage code))
  | Some shortLink => buildResponse shortLink
  end.

End LinkShortenerService.

(* ================================================================== *)
(** * The event loop: settling detached tasks *)
(* ================================================================== *)

Module EventLoop.

(** The body of a detached task together with its [.catch] handler:
    [incrementClicks(code).catch(err => console.error(..., err))]. *)
Definition runTask (o : StoreOutcome) (t : Task) : M unit :=
  match t with
  | IncrementClicksTask code =>
      catch (LinkShortenerRepository.incrementClicks o code)
            (console_error "Failed to increment clicks:")
  end.

Fixpoint removeAt {A : Type} (i : nat) (l : list A) : list A :=
  match i, l with
  | _, [] => []
  | O, _ :: rest => rest
  | S i', x :: rest => x :: removeAt i' rest
  end.

(** The [i]-th pending task runs to its end, the store answering its
    write with [o].  Nothing happens when there is no such task. *)
Definition settle (i : nat) (o : StoreOutcome) (w : World) : World :=
  match nth_error (pending w) i with
  | None => w
  | Some t => snd (runTask o t (set_pending (removeAt i (pending w)) w))
  end.

End EventLoop.

(* ================================================================== *)
(** * LinkShortenerController *)
(* ================================================================== *)

Module LinkShortenerController.

Section WithIsUrl.

Variable isURL : string -> bool.

(** [POST /shorten]. *)
Definition createShortLink (body : CreateShortLinkDto.t) (ip : string)
  : M ShortLinkResponseDto.t :=
  Validation.pipe (Validation.validateCreate isURL body) ;;;
  LinkShortenerService.createShortLink body (Some ip).

End WithIsUrl.

(** [GET /:shortCode]: status and [Location] of the redirect. *)
Definition redirect (code : string) : M (Z * string) :=
  Validation.pipe (Validation.validateParam code) ;;;
  target <- LinkShortenerService.getLongUrl code ;;
  ret (302%Z, target).

(** [GET /api/links/:shortCode]. *)
Definition getLinkDetails (code : string) : M ShortLinkResponseDto.t :=
  Validation.pipe (Validation.validateParam code) ;;;
  LinkShortenerService.getShortLinkDetails code.

End LinkShortenerController.

(* ================================================================== *)
(** * Sequences of operations *)
(* ================================================================== *)

(** What can happen to the world: the three service calls, a direct call
    of the repository's [incrementClicks], and the event loop settling a
    pending task. *)
Inductive Op : Type :=
| CallCreateShortLink (dto : CreateShortLinkDto.t) (ip : option string)
| CallGetLongUrl (code : string)
| CallGetShortLinkDetails (code : string)
| CallIncrementClicks (o : StoreOutcome) (code : string)
| Settle (i : nat) (o : StoreOutcome).

Definition step (op : Op) (w : World) : World :=
  match op with
  | CallCreateShortLink dto ip =>
      snd (LinkShortenerService.createShortLink dto ip w)
  | CallGetLongUrl code => snd (LinkShortenerService.getLongUrl code w)
  | CallGetShortLinkDetails code =>
      snd (LinkShortenerService.getShortLinkDetails code w)
  | CallIncrementClicks o code =>
      snd (LinkShortenerRepository.incrementClicks o code w)
  | Settle i o => EventLoop.settle i o w
  end.

Fixpoint run (ops : list Op) (w : World) : World :=
  match ops with
  | [] => w
  | op :: rest => run rest (step op w)
  end.

(** How one step may change the collection: not at all, by one added
    document, or by the increment transform on one document reference. *)
Inductive StoreChange : list Doc -> list Doc -> Prop :=
| Unchanged : forall ds, StoreChange ds ds
| Added : forall ds doc, StoreChange ds (ds ++ [doc])
| Incremented : forall ds id,
    StoreChange ds (Db.incrementAt id 1 ds).

(** A document and what has become of it. *)
Definition evolved (before after : ShortLink) : Prop :=
  longUrl after = longUrl before
  /\ shortCode after = shortCode before
  /\ createdAt after = createdAt before
  /\ creatorIp after = creatorIp before
  /\ (clicks before <= clicks after)%Z.

(** The document stored under a reference. *)
Definition docAt (id : DocId) (w : World) : option ShortLink :=
  match find (fun d => Nat.eqb (ref_id d) id) (docs w) with
  | Some d => Some (data d)
  | None => None
  end.

(** The record a code resolves to: the first match of the query. *)
Definition resolve (code : string) (w : World) : option ShortLink :=
  match Db.matching code (docs w) with
  | first :: _ => Some (data first)
  | [] => None
  end.

(** Identifiers are unique and below the next one to be assigned. *)
Definition wellFormed (w : World) : Prop :=
  NoDup (map ref_id (docs w))
  /\ Forall (fun d => ref_id d < nextId w) (docs w).

(* ================================================================== *)
(** * Auxiliary notions and sample worlds *)
(* ================================================================== *)

Import LinkShortenerRepository LinkShortenerService.

(** Unfolds the monadic plumbing of a call. *)
Ltac unfold_calls :=
  unfold createShortLink, getLongUrl, getShortLinkDetails, buildResponse,
    generateShortCode, LinkShortenerRepository.create, findByShortCode,
    findById, incrementClicks, Db.add, Db.query, Db.get, Db.updateIncrement,
    Math_random, Date_now, config_url, detach, bind, ret, throw.

(** A fresh server: nothing stored; the generator draws one half. *)
Definition emptyWorld : World :=
  mkWorld [] 0 [] 1700000000000 (fun _ => (2 ^ 52)%N) 0
          "http://localhost:3000" [] [].

(** The same server when the generator draws zero. *)
Definition zeroWorld : World :=
  mkWorld [] 0 [] 1700000000000 (fun _ => 0%N) 0
          "http://localhost:3000" [] [].

(** A server with one stored link, whose code is the one the generator
    yields next. *)
Definition takenWorld : World :=
  mkWorld [mkDoc 0 (mkShortLink "https://example.org/" "4fve9f"
                                1690000000000 3 None)]
          1 [] 1700000000000 (fun _ => 1111111111111111%N) 0
          "http://localhost:3000" [] [].


(** Digits and lower-case letters. *)
Definition base36Char (c : ascii) : bool :=
  Validation.inRange 48 57 c || Validation.inRange 97 122 c.

(** The summary of a record under a base URL. *)
Definition summaryOf (base : string) (r : ShortLink)
  : ShortLinkResponseDto.t :=
  ShortLinkResponseDto.make
    (shortCode r) (longUrl r) (base ++ "/" ++ shortCode r)
    (createdAt r) (clicks r).

(** Two records that agree on everything but [creatorIp]. *)
Definition sameButIp (a b : ShortLink) : Prop :=
  longUrl a = longUrl b
  /\ shortCode a = shortCode b
  /\ createdAt a = createdAt b
  /\ clicks a = clicks b.

(* ================================================================== *)
(** * IsAliasUniqueConstraint (link-shortener.validator.ts) *)
(* ================================================================== *)

Module IsAliasUniqueConstraint.

(** [validate(alias)]: a falsy alias passes without a lookup; otherwise
    the alias passes when no record carries it. *)
Definition validate (alias : string) : M bool :=
  if Js.truthy (Some alias)
  then
    existing <- LinkShortenerRepository.findByShortCode alias ;;
    ret (match existing with
         | Some _ => false
         | None => true
         end)
  else ret true.

Definition defaultMessage (value : string) : string :=
  "Custom alias " ++ Js.dquote ++ value ++ Js.dquote
  ++ " is already taken. Please choose another.".

End IsAliasUniqueConstraint.

(* ================================================================== *)
(** * Environment configuration (config/env.config.ts) *)
(* ================================================================== *)

Module EnvConfig.

(** [process.env]: a variable is a string or is not defined. *)
Definition ProcessEnv : Type := string -> option string.

(** What a function called at start-up does: it returns or it throws an
    [Error] with a message. *)
Inductive Outcome : Type :=
| Returned
| Thrown (message : string).

Definition defaultUrl : string := "http://localhost:3000".

(** [envConfig().linkShortener.url]:
    [process.env.LINK_SHORTENER_URL || 'http://localhost:3000']. *)
Definition linkShortenerUrl (env : ProcessEnv) : string :=
  match env "LINK_SHORTENER_URL" with
  | Some value => if Js.truthy (Some value) then value else defaultUrl
  | None => defaultUrl
  end.

(** The entries of [required], in the order of the object literal. *)
Definition required (env : ProcessEnv) : list (string * option string) :=
  [ ("FIREBASE_SERVICE_ACCOUNT_KEY", env "FIREBASE_SERVICE_ACCOUNT_KEY");
    ("LINK_SHORTENER_URL", env "LINK_SHORTENER_URL") ].

(** The keys of the entries whose value is falsy. *)
Definition missing (env : ProcessEnv) : list string :=
  map fst (filter (fun entry => negb (Js.truthy (snd entry))) (required env)).

Definition validateEnvConfig (env : ProcessEnv) : Outcome :=
  match missing env with
  | [] => Returned
  | _ :: _ =>
      Thrown ("Missing required environment variables: "
              ++ String.concat ", " (missing env))
  end.

End EnvConfig.

(* ================================================================== *)
(** * Client-side validation (web/validators/link-shortener.validator.ts) *)
(* ================================================================== *)

Module WebValidators.

Record ValidationResult : Type := mkResult {
  success : bool;
  data : option CreateShortLinkDto.t;
  error : option string
}.

Section WithUrlCheck.

(** The check behind [z.string().url()]. *)
Variable zodUrl : string -> bool.

(** The issues [createShortLinkSchema.safeParse] reports: those of
    [longUrl] first, then those of [customAlias], each field running its
    checks in the order they were chained.  An absent alias is accepted by
    [.optional()]. *)
Definition issues (input : CreateShortLinkDto.t) : list string :=
  Validation.check (zodUrl (CreateShortLinkDto.longUrl input))
                   "Please provide a valid URL with http:// or https://"
  ++ Validation.check
       (Nat.leb 1 (String.length (CreateShortLinkDto.longUrl input)))
       "URL is required"
  ++ match CreateShortLinkDto.customAlias input with
     | None => []
     | Some alias =>
         Validation.check (Nat.leb 3 (String.length alias))
                          "Custom alias must be at least 3 characters long"
         ++ Validation.check (Nat.leb (String.length alias) 50)
                             "Custom alias must not exceed 50 characters"
         ++ Validation.check
              (Validation.matchesAlias alias)
              ("Custom alias can only contain letters, numbers, "
               ++ "hyphens, and underscores")
     end.

(** [validateCreateShortLink(input)]: the message of the first issue, or
    the parsed data. *)
Definition validateCreateShortLink (input : CreateShortLinkDto.t)
  : ValidationResult :=
  match issues input with
  | [] => mkResult true (Some input) None
  | firstError :: _ => mkResult false None (Some firstError)
  end.

End WithUrlCheck.

End WebValidators.

(* ================================================================== *)
(** * Invariants of the collection *)
(* ================================================================== *)

(** No two documents carry the same short code. *)
Definition uniqueCodes (w : World) : Prop :=
  NoDup (map (fun d => shortCode (data d)) (docs w)).

(** No counter is negative. *)
Definition clicksCounted (w : World) : Prop :=
  Forall (fun d => (0 <= clicks (data d))%Z) (docs w).

(** An environment with both variables set. *)
Definition sampleEnv : EnvConfig.ProcessEnv :=
  fun name =>
    if String.eqb name "LINK_SHORTENER_URL" then Some "https://lnk.sh"
    else if String.eqb name "FIREBASE_SERVICE_ACCOUNT_KEY" then Some "e30="
    else None.

(** Every pending task is for a code that resolves. *)
Definition pendingResolve (w : World) : Prop :=
  Forall (fun t => match t with
                   | IncrementClicksTask code => resolve code w <> None
                   end) (pending w).

(** Calls that only look a code up. *)
Definition isLookup (op : Op) : bool :=
  match op with
  | CallGetLongUrl _ => true
  | CallGetShortLinkDetails _ => true
  | _ => false
  end.

(* ================================================================== *)
(** * Proofs *)
(* ================================================================== *)

(** ** The query *)

Lemma matching_app (code : string) (xs ys : list Doc) :
  Db.matching code (xs ++ ys)%list
  = (Db.matching code xs ++ Db.matching code ys)%list.
Proof. unfold Db.matching. apply filter_app. Qed.

Lemma matching_incrementAt (code : string) (id : DocId) (n : Z)
      (ds : list Doc) :
  Db.matching code (Db.incrementAt id n ds)
  = Db.incrementAt id n (Db.matching code ds).
Proof.
  unfold Db.matching, Db.incrementAt.
  induction ds as [|d ds IH]; [reflexivity|].
  cbn [map filter].
  destruct (Nat.eqb (ref_id d) id) eqn:Hid; cbn [data Db.increment shortCode];
    destruct (String.eqb (shortCode (data d)) code) eqn:Hc;
    cbn [map]; rewrite ?Hid, IH; reflexivity.
Qed.

Lemma resolve_record_op (code : string) (o : StoreOp) (w : World) :
  resolve code (record_op o w) = resolve code w.
Proof. reflexivity. Qed.

Lemma findByShortCode_run (code : string) (w : World) :
  findByShortCode code w = (Ok (resolve code w), record_op (OpQuery code) w).
Proof.
  unfold findByShortCode, Db.query, bind, ret, resolve. reflexivity.
Qed.

(** ** The candidate code *)

Lemma candidateCode_world (dto : CreateShortLinkDto.t) (w w1 : World)
      (code : string) :
  candidateCode dto w = (Ok code, w1) ->
  w1 = w \/ w1 = set_drawn (S (drawn w)) w.
Proof.
  unfold candidateCode, generateShortCode, Math_random, bind, ret.
  destruct (CreateShortLinkDto.customAlias dto) as [[|c s]|]; cbn;
    intros H; inversion H; auto.
Qed.

Lemma candidateCode_falsy (dto : CreateShortLinkDto.t) (w : World) :
  Js.truthy (CreateShortLinkDto.customAlias dto) = false ->
  candidateCode dto w = generateShortCode w.
Proof.
  unfold candidateCode.
  destruct (CreateShortLinkDto.customAlias dto) as [[|c s]|]; cbn;
    intros H; [reflexivity | discriminate | reflexivity].
Qed.

Lemma candidateCode_truthy (dto : CreateShortLinkDto.t) (w : World)
      (alias : string) :
  CreateShortLinkDto.customAlias dto = Some alias ->
  Js.truthy (Some alias) = true ->
  candidateCode dto w = (Ok alias, w).
Proof.
  unfold candidateCode. intros -> H. rewrite H. reflexivity.
Qed.

Lemma candidateCode_total (dto : CreateShortLinkDto.t) (w : World) :
  exists code w1, candidateCode dto w = (Ok code, w1).
Proof.
  unfold candidateCode, generateShortCode, Math_random, bind, ret.
  destruct (CreateShortLinkDto.customAlias dto) as [[|c s]|]; cbn;
    eauto.
Qed.

(** C1.  When the resolved code (the alias if it is given, a generated code
    otherwise) matches no stored record, [createShortLink] appends one
    document holding the given long URL, that code, the current time, zero
    clicks and the creator's address; the code then resolves to this
    record, and the summary returned carries the code, the long URL, the
    base URL followed by a slash and the code, the creation time and zero
    clicks. *)
Theorem createShortLink_persists_new_record
        (dto : CreateShortLinkDto.t) (ip : option string) (w w1 : World)
        (code : string) :
  candidateCode dto w = (Ok code, w1) ->
  resolve code w = None ->
  let record :=
    mkShortLink (CreateShortLinkDto.longUrl dto) code (clock w) 0 ip in
  exists w',
    createShortLink dto ip w
    = (Ok (ShortLinkResponseDto.make
             code (CreateShortLinkDto.longUrl dto)
             (baseUrl w ++ "/" ++ code) (clock w) 0), w')
    /\ docs w' = (docs w ++ [mkDoc (nextId w) record])%list
    /\ resolve code w' = Some record
    /\ oplog w' = (oplog w ++ [OpQuery code; OpAdd record])%list.
Proof.
  intros Hcode Hfree record.
  unfold createShortLink, bind at 1. rewrite Hcode.
  unfold bind at 1. rewrite findByShortCode_run.
  assert (Hsame : resolve code w1 = resolve code w).
  { destruct (candidateCode_world _ _ _ _ Hcode) as [-> | ->]; reflexivity. }
  rewrite Hsame, Hfree.
  assert (Hw1 : docs w1 = docs w /\ nextId w1 = nextId w /\ clock w1 = clock w
                /\ baseUrl w1 = baseUrl w /\ oplog w1 = oplog w).
  { destruct (candidateCode_world _ _ _ _ Hcode) as [-> | ->]; repeat split. }
  destruct Hw1 as (Hd & Hn & Hc & Hb & Ho).
  unfold_calls. cbn. rewrite Hd, Hn, Hc, Hb.
  eexists. split; [reflexivity|].
  unfold resolve, record_op, set_nextId, set_docs. cbn [docs oplog].
  rewrite Ho.
  split; [reflexivity|]. split.
  - rewrite matching_app.
    unfold resolve in Hfree.
    destruct (Db.matching code (docs w)) as [|d ds]; [|discriminate].
    cbn. rewrite String.eqb_refl. reflexivity.
  - rewrite <- app_assoc. reflexivity.
Qed.

(** C1 at a concrete input: an alias nobody uses yet. *)
Lemma createShortLink_persists_new_record_witness :
  exists w',
    createShortLink
      (CreateShortLinkDto.make "https://example.com/a/b/c" (Some "my-link"))
      (Some "203.0.113.7") emptyWorld
    = (Ok (ShortLinkResponseDto.make
             "my-link" "https://example.com/a/b/c"
             ("http://localhost:3000" ++ "/" ++ "my-link")
             1700000000000 0), w')
    /\ docs w'
       = ([] ++ [mkDoc 0 (mkShortLink
                            "https://example.com/a/b/c" "my-link"
                            1700000000000 0 (Some "203.0.113.7"))])%list
    /\ resolve "my-link" w'
       = Some (mkShortLink "https://example.com/a/b/c" "my-link"
                           1700000000000 0 (Some "203.0.113.7"))
    /\ oplog w'
       = ([] ++ [OpQuery "my-link";
                 OpAdd (mkShortLink
                          "https://example.com/a/b/c" "my-link"
                          1700000000000 0 (Some "203.0.113.7"))])%list.
Proof.
  apply (createShortLink_persists_new_record
           (CreateShortLinkDto.make "https://example.com/a/b/c"
                                    (Some "my-link"))
           (Some "203.0.113.7") emptyWorld emptyWorld "my-link").
  - reflexivity.
  - reflexivity.
Defined.

(** C2.  When the resolved code already matches a stored record,
    [createShortLink] throws a [ConflictException] (status 409) whose
    message quotes that code.  It has issued one query and nothing else:
    the collection is as before, no document was added, and at most one
    number was drawn from the generator, so no second code was tried, also
    when the code came from the generator. *)
Theorem createShortLink_conflict
        (dto : CreateShortLinkDto.t) (ip : option string) (w w1 : World)
        (code : string) (taken : ShortLink) :
  candidateCode dto w = (Ok code, w1) ->
  resolve code w = Some taken ->
  let message :=
    "Short code " ++ Js.dquote ++ code ++ Js.dquote
    ++ " is already in use. Please choose another alias." in
  createShortLink dto ip w
  = (Err (ConflictException message), record_op (OpQuery code) w1)
  /\ getStatus (ConflictException message) = 409%Z
  /\ docs (snd (createShortLink dto ip w)) = docs w
  /\ nextId (snd (createShortLink dto ip w)) = nextId w
  /\ oplog (snd (createShortLink dto ip w))
     = (oplog w ++ [OpQuery code])%list
  /\ drawn (snd (createShortLink dto ip w)) <= S (drawn w)
  /\ (Js.truthy (CreateShortLinkDto.customAlias dto) = false ->
      fst (generateShortCode w) = Ok code
      /\ drawn (snd (createShortLink dto ip w)) = S (drawn w)).
Proof.
  intros Hcode Htaken message.
  assert (Hrun : createShortLink dto ip w
                 = (Err (ConflictException message),
                    record_op (OpQuery code) w1)).
  { unfold createShortLink, bind at 1. rewrite Hcode.
    unfold bind at 1. rewrite findByShortCode_run.
    assert (Hsame : resolve code w1 = resolve code w).
    { destruct (candidateCode_world _ _ _ _ Hcode) as [-> | ->];
        reflexivity. }
    rewrite Hsame, Htaken. reflexivity. }
  rewrite Hrun. cbn [snd].
  split; [reflexivity|]. split; [reflexivity|].
  assert (Hdrawn : Js.truthy (CreateShortLinkDto.customAlias dto) = false ->
                   fst (generateShortCode w) = Ok code
                   /\ drawn w1 = S (drawn w)).
  { intros Hfalsy. rewrite (candidateCode_falsy _ _ Hfalsy) in Hcode.
    rewrite Hcode. split; [reflexivity|].
    unfold generateShortCode, Math_random, bind, ret in Hcode.
    inversion Hcode. reflexivity. }
  destruct (candidateCode_world _ _ _ _ Hcode) as [Hw | Hw];
    rewrite Hw in Hdrawn |- *; cbn in Hdrawn |- *;
    repeat (split; [reflexivity || lia|]); exact Hdrawn.
Qed.

(** C2 at a concrete input: the generator yields a code that is taken. *)
Lemma createShortLink_conflict_witness :
  candidateCode (CreateShortLinkDto.make "https://example.com/" None)
                takenWorld
  = (Ok "4fve9f", set_drawn 1 takenWorld)
  /\ resolve "4fve9f" takenWorld
     = Some (mkShortLink "https://example.org/" "4fve9f" 1690000000000 3 None)
  /\ createShortLink (CreateShortLinkDto.make "https://example.com/" None)
                     (Some "203.0.113.7") takenWorld
     = (Err (ConflictException
               ("Short code " ++ Js.dquote ++ "4fve9f" ++ Js.dquote
                ++ " is already in use. Please choose another alias.")),
        record_op (OpQuery "4fve9f") (set_drawn 1 takenWorld)).
Proof.
  split; [reflexivity|]. split; [reflexivity|].
  exact (proj1 (createShortLink_conflict
                  (CreateShortLinkDto.make "https://example.com/" None)
                  (Some "203.0.113.7") takenWorld (set_drawn 1 takenWorld)
                  "4fve9f"
                  (mkShortLink "https://example.org/" "4fve9f"
                               1690000000000 3 None)
                  eq_refl eq_refl)).
Defined.

(** C10.  At the service, an empty alias is falsy: the call takes the same
    path as a call without alias.  One number is drawn and the candidate
    code is the generated one; the whole call, result and world, is the
    one of the call without alias.  The code queried is the generated
    code: when it is taken the call throws the conflict of the generated
    code and adds nothing; when it is free the call stores and returns a
    record under the generated code.  The store calls issued are the
    query for the generated code and, at most, the add of that record, so
    the empty alias is neither rejected nor looked up as given. *)
Theorem createShortLink_empty_alias_is_no_alias
        (url : string) (ip : option string) (w : World)
        (generated : string) :
  fst (generateShortCode w) = Ok generated ->
  let dto := CreateShortLinkDto.make url (Some "") in
  let w1 := set_drawn (S (drawn w)) w in
  let record := mkShortLink url generated (clock w) 0 ip in
  candidateCode dto w = (Ok generated, w1)
  /\ createShortLink dto ip w
     = createShortLink (CreateShortLinkDto.make url None) ip w
  /\ drawn (snd (createShortLink dto ip w)) = S (drawn w)
  /\ match resolve generated w with
     | Some _ =>
         createShortLink dto ip w
         = (Err (ConflictException (conflictMessage generated)),
            record_op (OpQuery generated) w1)
     | None =>
         createShortLink dto ip w
         = (Ok (ShortLinkResponseDto.make
                  generated url (baseUrl w ++ "/" ++ generated) (clock w) 0),
            record_op (OpAdd record)
              (set_nextId (S (nextId w))
                 (set_docs (docs w ++ [mkDoc (nextId w) record])
                           (record_op (OpQuery generated) w1))))
     end
  /\ exists issued,
       oplog (snd (createShortLink dto ip w))
       = (oplog w ++ OpQuery generated :: issued)%list
       /\ (issued = [] \/ issued = [OpAdd record]).
Proof.
  intros Hgen dto w1 record.
  assert (Hg : generateShortCode w = (Ok generated, w1)).
  { revert Hgen. unfold generateShortCode, Math_random, bind, ret. cbn.
    intros H. inversion H. reflexivity. }
  assert (Hrun :
            createShortLink dto ip w
            = match resolve generated w with
              | Some _ =>
                  (Err (ConflictException (conflictMessage generated)),
                   record_op (OpQuery generated) w1)
              | None =>
                  (Ok (ShortLinkResponseDto.make
                         generated url (baseUrl w ++ "/" ++ generated)
                         (clock w) 0),
                   record_op (OpAdd record)
                     (set_nextId (S (nextId w))
                        (set_docs (docs w ++ [mkDoc (nextId w) record])
                                  (record_op (OpQuery generated) w1))))
              end).
  { unfold createShortLink, bind at 1.
    change (candidateCode dto w) with (generateShortCode w). rewrite Hg.
    unfold bind at 1. rewrite findByShortCode_run.
    change (resolve generated w1) with (resolve generated w).
    destruct (resolve generated w); reflexivity. }
  split; [exact Hg|]. split; [reflexivity|].
  rewrite Hrun.
  destruct (resolve generated w); cbn [snd];
    (split; [reflexivity|]); (split; [reflexivity|]).
  - exists []. split; [reflexivity | left; reflexivity].
  - exists [OpAdd record]. split; [|right; reflexivity].
    cbn. rewrite <- app_assoc. reflexivity.
Qed.

(** C10 at a concrete input: the draw of one half yields the code [i],
    which is stored for the request with the empty alias. *)
Lemma createShortLink_empty_alias_is_no_alias_witness :
  candidateCode (CreateShortLinkDto.make "https://example.com/" (Some ""))
                emptyWorld
  = (Ok "i", set_drawn 1 emptyWorld)
  /\ resolve "i"
       (snd (createShortLink
               (CreateShortLinkDto.make "https://example.com/" (Some ""))
               None emptyWorld))
     = Some (mkShortLink "https://example.com/" "i" 1700000000000 0 None).
Proof.
  pose proof (createShortLink_empty_alias_is_no_alias
                "https://example.com/" None emptyWorld "i" eq_refl) as H.
  split.
  - exact (proj1 H).
  - reflexivity.
Defined.

(** ** The generator *)


Lemma get_forallb (P : ascii -> bool) (s : string) :
  forallb P (list_ascii_of_string s) = true ->
  forall n c, String.get n s = Some c -> P c = true.
Proof.
  induction s as [|a s IH]; cbn; intros Hall n c Hget; [discriminate|].
  apply andb_true_iff in Hall. destruct Hall as [Ha Hs].
  destruct n as [|n].
  - inversion Hget. subst. exact Ha.
  - apply (IH Hs n c Hget).
Qed.

Lemma digitChar_base36 (d : N) : base36Char (Js.digitChar d) = true.
Proof.
  unfold Js.digitChar.
  destruct (String.get (N.to_nat d) Js.radix36) as [c|] eqn:Hget.
  - apply (get_forallb base36Char Js.radix36 eq_refl _ _ Hget).
  - reflexivity.
Qed.

Lemma substring0_length (m : nat) (t : string) :
  String.length (String.substring 0 m t) <= m.
Proof.
  revert t. induction m as [|m IH]; intros t.
  - destruct t; cbn; lia.
  - destruct t as [|c t]; cbn; [lia|]. specialize (IH t). lia.
Qed.

Lemma substring0_chars (m : nat) (t : string) (c : ascii) :
  In c (list_ascii_of_string (String.substring 0 m t)) ->
  In c (list_ascii_of_string t).
Proof.
  revert t. induction m as [|m IH]; intros t.
  - destruct t; cbn; tauto.
  - destruct t as [|a t]; cbn; [tauto|].
    intros [H | H]; [left; exact H | right; apply (IH t H)].
Qed.

Lemma substring_after_radix_point (t : string) :
  Js.substring 2 8 ("0." ++ t)
  = String.substring 0 (Nat.min 6 (String.length t)) t.
Proof.
  unfold Js.substring. cbn [String.length append].
  set (n := String.length t).
  replace (Nat.min 2 (S (S n))) with 2 by lia.
  replace (Nat.min 8 (S (S n))) with (S (S (Nat.min 6 n))) by lia.
  replace (Nat.min 2 (S (S (Nat.min 6 n)))) with 2 by lia.
  replace (Nat.max 2 (S (S (Nat.min 6 n))) - 2) with (Nat.min 6 n) by lia.
  reflexivity.
Qed.

(** What holds of every generated code: it has at most six characters,
    all of them digits or lower-case letters. *)
Lemma generateShortCode_shape (w : World) :
  exists code,
    generateShortCode w = (Ok code, set_drawn (S (drawn w)) w)
    /\ String.length code <= 6
    /\ forall c, In c (list_ascii_of_string code) -> base36Char c = true.
Proof.
  unfold generateShortCode, Math_random, bind, ret.
  eexists. split; [reflexivity|].
  unfold Js.toString36.
  destruct (N.eqb (Js.toDraw (entropy w (drawn w))) 0).
  - cbn. split; [lia | tauto].
  - rewrite substring_after_radix_point. split.
    + etransitivity; [apply substring0_length | apply Nat.le_min_l].
    + intros c Hc. apply substring0_chars in Hc.
      rewrite list_ascii_of_string_of_list_ascii in Hc.
      apply in_map_iff in Hc. destruct Hc as (d & <- & _).
      apply digitChar_base36.
Qed.

(** The expansion of a multiple of [2^-53] is complete after 27 digits:
    more iterations add nothing. *)
Lemma fractionDigits_exhausted (n : nat) :
  forall (fuel : nat) (x : N),
    (x < Js.precision)%N ->
    ((36 ^ N.of_nat n * x) mod Js.precision = 0)%N ->
    n <= fuel ->
    Js.fractionDigits fuel x = Js.fractionDigits n x.
Proof.
  assert (Hp : Js.precision <> 0%N) by (unfold Js.precision; discriminate).
  induction n as [|n IH]; intros fuel x Hx Hmod Hle.
  - change (36 ^ N.of_nat 0)%N with 1%N in Hmod.
    rewrite N.mul_1_l, N.mod_small in Hmod by exact Hx. subst x.
    destruct fuel; reflexivity.
  - destruct fuel as [|fuel]; [lia|].
    cbn [Js.fractionDigits].
    destruct (N.eqb x 0); [reflexivity|].
    f_equal. apply IH.
    + apply N.mod_upper_bound. exact Hp.
    + rewrite N.Div0.mul_mod_idemp_r.
      rewrite Nat2N.inj_succ, N.pow_succ_r' in Hmod.
      replace (36 ^ N.of_nat n * (36 * x))%N
        with (36 * 36 ^ N.of_nat n * x)%N by lia.
      exact Hmod.
    + lia.
Qed.

Lemma toString36_complete (x : N) (extra : nat) :
  (x < Js.precision)%N ->
  Js.fractionDigits (Js.maxFractionDigits + extra) x
  = Js.fractionDigits Js.maxFractionDigits x.
Proof.
  intros Hx. apply fractionDigits_exhausted; [exact Hx | | lia].
  rewrite N.Div0.mul_mod.
  replace ((36 ^ N.of_nat Js.maxFractionDigits) mod Js.precision)%N
    with 0%N by (vm_compute; reflexivity).
  rewrite N.mul_0_l. reflexivity.
Qed.

(** C4.  A draw of one half prints as [0.i] in radix 36, so the generated
    code is the single character [i]: [createShortLink] stores and returns
    a code of length 1, below the three characters every short code must
    have, and the redirect route refuses that very code with status 400.
    A draw of zero yields the empty code.  So it does not hold that every
    generated code has three characters or more. *)
Theorem createShortLink_generates_short_code :
  Js.toString36 (2 ^ 52)%N = "0.i"
  /\ createShortLink
       (CreateShortLinkDto.make "https://example.com/a/b/c" None) None
       emptyWorld
     = (Ok (ShortLinkResponseDto.make
              "i" "https://example.com/a/b/c" "http://localhost:3000/i"
              1700000000000 0),
        mkWorld
          [mkDoc 0 (mkShortLink "https://example.com/a/b/c" "i"
                                1700000000000 0 None)]
          1
          [OpQuery "i";
           OpAdd (mkShortLink "https://example.com/a/b/c" "i"
                              1700000000000 0 None)]
          1700000000000 (entropy emptyWorld) 1 "http://localhost:3000" [] [])
  /\ String.length "i" < 3
  /\ Validation.minLength 3 "i" = false
  /\ (forall w,
        LinkShortenerController.redirect "i" w
        = (Err (BadRequestException
                  ["shortCode must be longer than or equal to 3 characters"]),
           w))
  /\ fst (generateShortCode zeroWorld) = Ok ""
  /\ ~ (forall w code,
          fst (generateShortCode w) = Ok code -> 3 <= String.length code).
Proof.
  split; [reflexivity|]. split; [reflexivity|].
  split; [cbn; lia|]. split; [reflexivity|]. split; [|split].
  - intros w. reflexivity.
  - reflexivity.
  - intros H. specialize (H emptyWorld "i" eq_refl). cbn in H. lia.
Qed.

(** ** Running the calls *)

Lemma getShortLinkDetails_run (code : string) (w : World) :
  getShortLinkDetails code w
  = match resolve code w with
    | Some r =>
        (Ok (ShortLinkResponseDto.make
               (shortCode r) (longUrl r) (baseUrl w ++ "/" ++ shortCode r)
               (createdAt r) (clicks r)),
         record_op (OpQuery code) w)
    | None =>
        (Err (NotFoundException (notFoundMessage code)),
         record_op (OpQuery code) w)
    end.
Proof.
  unfold getShortLinkDetails, bind at 1. rewrite findByShortCode_run.
  destruct (resolve code w); reflexivity.
Qed.

Lemma getLongUrl_run (code : string) (w : World) :
  getLongUrl code w
  = match resolve code w with
    | Some r =>
        (Ok (longUrl r),
         set_pending (pending w ++ [IncrementClicksTask code])
                     (record_op (OpQuery code) w))
    | None =>
        (Err (NotFoundException (notFoundRedirectMessage code)),
         record_op (OpQuery code) w)
    end.
Proof.
  unfold getLongUrl, bind at 1. rewrite findByShortCode_run.
  destruct (resolve code w); reflexivity.
Qed.

Lemma incrementClicks_run (o : StoreOutcome) (code : string) (w : World) :
  incrementClicks o code w
  = match Db.matching code (docs w) with
    | d :: _ =>
        Db.updateIncrement o (ref_id d) 1 (record_op (OpQuery code) w)
    | [] => (Ok tt, record_op (OpQuery code) w)
    end.
Proof.
  unfold incrementClicks, Db.query, bind, ret. cbn.
  destruct (Db.matching code (docs w)); reflexivity.
Qed.

Lemma matching_after_increment (code : string) (ds rest : list Doc)
      (d : Doc) (n : Z) :
  Db.matching code ds = d :: rest ->
  Db.matching code (Db.incrementAt (ref_id d) n ds)
  = mkDoc (ref_id d) (Db.increment n (data d))
      :: Db.incrementAt (ref_id d) n rest.
Proof.
  intros H. rewrite matching_incrementAt, H. cbn.
  rewrite Nat.eqb_refl. reflexivity.
Qed.

Lemma find_incrementAt (id id' : DocId) (n : Z) (ds : list Doc) :
  find (fun d => Nat.eqb (ref_id d) id) (Db.incrementAt id' n ds)
  = match find (fun d => Nat.eqb (ref_id d) id) ds with
    | Some d =>
        Some (if Nat.eqb (ref_id d) id'
              then mkDoc (ref_id d) (Db.increment n (data d))
              else d)
    | None => None
    end.
Proof.
  induction ds as [|d ds IH]; [reflexivity|].
  cbn [Db.incrementAt map find]. fold (Db.incrementAt id' n ds).
  destruct (Nat.eqb (ref_id d) id') eqn:Hd'; cbn [ref_id];
    destruct (Nat.eqb (ref_id d) id) eqn:Hd;
    rewrite ?Hd'; try reflexivity; exact IH.
Qed.

(** Settling the task that was detached last. *)
Lemma nth_error_last {A : Type} (l : list A) (x : A) :
  nth_error (l ++ [x]) (List.length l) = Some x.
Proof. induction l as [|a l IH]; [reflexivity | exact IH]. Qed.

Lemma removeAt_last {A : Type} (l : list A) (x : A) :
  EventLoop.removeAt (List.length l) (l ++ [x]) = l.
Proof.
  induction l as [|a l IH]; [reflexivity|]. cbn. rewrite IH. reflexivity.
Qed.

Lemma settle_detached (o : StoreOutcome) (code : string) (w : World) :
  EventLoop.settle (List.length (pending w)) o
    (set_pending (pending w ++ [IncrementClicksTask code])
                 (record_op (OpQuery code) w))
  = snd (EventLoop.runTask o (IncrementClicksTask code)
           (record_op (OpQuery code) w)).
Proof.
  unfold EventLoop.settle. cbn [pending set_pending].
  rewrite nth_error_last, removeAt_last.
  destruct w; reflexivity.
Qed.

Lemma runTask_run (o : StoreOutcome) (code : string) (w : World) :
  EventLoop.runTask o (IncrementClicksTask code) w
  = match Db.matching code (docs w), o with
    | [], _ => (Ok tt, record_op (OpQuery code) w)
    | d :: _, Applied =>
        (Ok tt,
         set_docs (Db.incrementAt (ref_id d) 1 (docs w))
           (record_op (OpIncrement (ref_id d) 1)
              (record_op (OpQuery code) w)))
    | d :: _, Rejected reason =>
        (Ok tt,
         write_console ("Failed to increment clicks:" ++ " " ++ reason)
           (record_op (OpIncrement (ref_id d) 1)
              (record_op (OpQuery code) w)))
    end.
Proof.
  unfold EventLoop.runTask, catch. rewrite incrementClicks_run.
  destruct (Db.matching code (docs w)) as [|d rest]; [reflexivity|].
  destruct o; reflexivity.
Qed.

(** C8.  [incrementClicks] queries the collection for the code.  When the
    query has a first match, exactly one increment by 1 is issued for the
    reference of that match.  Once the store has applied it, the
    collection is the old one with that transform applied, the code
    resolves to the same record with [clicks] higher by 1, and the
    documents under other references are untouched; a store that rejects
    the update makes the call throw that rejection.  When the query
    matches nothing the call returns normally, whatever the store would
    have answered, and only the query was issued: the collection is as
    before. *)
Theorem incrementClicks_increments_first_match (code : string) (w : World) :
  (forall d rest,
      Db.matching code (docs w) = d :: rest ->
      let w' := snd (incrementClicks Applied code w) in
      incrementClicks Applied code w
      = (Ok tt,
         set_docs (Db.incrementAt (ref_id d) 1 (docs w))
           (record_op (OpIncrement (ref_id d) 1)
              (record_op (OpQuery code) w)))
      /\ resolve code w'
         = Some (mkShortLink (longUrl (data d)) (shortCode (data d))
                             (createdAt (data d)) (clicks (data d) + 1)
                             (creatorIp (data d)))
      /\ oplog w'
         = (oplog w ++ [OpQuery code; OpIncrement (ref_id d) 1])%list
      /\ (forall id, id <> ref_id d -> docAt id w' = docAt id w)
      /\ forall reason,
           incrementClicks (Rejected reason) code w
           = (Err (StoreRejection reason),
              record_op (OpIncrement (ref_id d) 1)
                (record_op (OpQuery code) w)))
  /\ (resolve code w = None ->
      forall o,
        incrementClicks o code w = (Ok tt, record_op (OpQuery code) w)
        /\ docs (snd (incrementClicks o code w)) = docs w
        /\ oplog (snd (incrementClicks o code w))
           = (oplog w ++ [OpQuery code])%list).
Proof.
  split.
  - intros d rest Hm w'. subst w'.
    rewrite incrementClicks_run, Hm. cbn [Db.updateIncrement snd].
    unfold Db.updateIncrement.
    split; [reflexivity|]. cbn [snd]. split; [|split; [|split]].
    + unfold resolve. cbn [docs set_docs].
      rewrite (matching_after_increment _ _ _ _ _ Hm). reflexivity.
    + cbn. rewrite <- app_assoc. reflexivity.
    + intros id Hid. unfold docAt. cbn [docs set_docs record_op].
      rewrite find_incrementAt.
      destruct (find (fun d0 => Nat.eqb (ref_id d0) id) (docs w)) as [d0|]
        eqn:Hf; [|reflexivity].
      apply find_some in Hf. destruct Hf as [_ Hf].
      apply Nat.eqb_eq in Hf.
      destruct (Nat.eqb (ref_id d0) (ref_id d)) eqn:He; [|reflexivity].
      apply Nat.eqb_eq in He. congruence.
    + intros reason. rewrite incrementClicks_run, Hm. reflexivity.
  - intros Hnone o. rewrite incrementClicks_run.
    unfold resolve in Hnone.
    destruct (Db.matching code (docs w)); [|discriminate].
    repeat split.
Qed.

(** C8 at a concrete input: one stored record, then an unknown code. *)
Lemma incrementClicks_increments_first_match_witness :
  resolve "4fve9f" (snd (incrementClicks Applied "4fve9f" takenWorld))
  = Some (mkShortLink "https://example.org/" "4fve9f" 1690000000000 (3 + 1)
                      None)
  /\ incrementClicks (Rejected "UNAVAILABLE") "nobody" takenWorld
     = (Ok tt, record_op (OpQuery "nobody") takenWorld).
Proof.
  split.
  - exact (proj1 (proj2 (proj1 (incrementClicks_increments_first_match
                                  "4fve9f" takenWorld)
                           (mkDoc 0 (mkShortLink "https://example.org/"
                                       "4fve9f" 1690000000000 3 None))
                           [] eq_refl))).
  - exact (proj1 (proj2 (incrementClicks_increments_first_match
                           "nobody" takenWorld)
                    eq_refl (Rejected "UNAVAILABLE"))).
Defined.

Lemma details_after_task (o : StoreOutcome) (code : string) (w : World)
      (r : ShortLink) :
  resolve code w = Some r ->
  fst (getShortLinkDetails code
         (snd (EventLoop.runTask o (IncrementClicksTask code)
                 (record_op (OpQuery code) w))))
  = Ok (summaryOf (baseUrl w)
          (match o with
           | Applied => Db.increment 1 r
           | Rejected _ => r
           end)).
Proof.
  intros Hr. rewrite runTask_run. unfold resolve in Hr.
  cbn [docs record_op].
  destruct (Db.matching code (docs w)) as [|d rest] eqn:Hm; [discriminate|].
  inversion Hr; subst r. clear Hr.
  destruct o as [|reason]; cbn [snd]; rewrite getShortLinkDetails_run.
  - unfold resolve. cbn [docs set_docs].
    rewrite (matching_after_increment _ _ _ _ _ Hm). reflexivity.
  - unfold resolve. cbn [docs write_console record_op]. rewrite Hm.
    reflexivity.
Qed.

(** C3, as the code has it.  [getLongUrl] throws a [NotFoundException]
    exactly when the code resolves to no record.  When it resolves to a
    record, the call returns the stored long URL and detaches one
    increment task, the collection being as before, so that a details
    call made before the task settles still reports the old count.  Once
    the task has settled: if the store applied the update, the details
    call reports [clicks] higher by exactly 1 and the other fields as
    stored; if the store rejected it, the count is the old one. *)
Theorem getLongUrl_counts_click_when_applied (code : string) (w : World) :
  (resolve code w = None
   <-> exists message,
         fst (getLongUrl code w) = Err (NotFoundException message))
  /\ forall r,
       resolve code w = Some r ->
       let w1 := snd (getLongUrl code w) in
       let slot := List.length (pending w) in
       fst (getLongUrl code w) = Ok (longUrl r)
       /\ pending w1 = (pending w ++ [IncrementClicksTask code])%list
       /\ docs w1 = docs w
       /\ fst (getShortLinkDetails code w1) = Ok (summaryOf (baseUrl w) r)
       /\ fst (getShortLinkDetails code (EventLoop.settle slot Applied w1))
          = Ok (ShortLinkResponseDto.make
                  (shortCode r) (longUrl r) (baseUrl w ++ "/" ++ shortCode r)
                  (createdAt r) (clicks r + 1))
       /\ forall reason,
            fst (getShortLinkDetails code
                   (EventLoop.settle slot (Rejected reason) w1))
            = Ok (summaryOf (baseUrl w) r).
Proof.
  rewrite getLongUrl_run. split.
  - destruct (resolve code w) as [r|]; cbn [fst]; split.
    + discriminate.
    + intros [m Hm]. discriminate.
    + intros _. eexists. reflexivity.
    + reflexivity.
  - intros r Hr w1 slot. subst w1 slot. rewrite Hr. cbn [fst snd].
    split; [reflexivity|]. split; [reflexivity|]. split; [reflexivity|].
    split; [|split].
    + rewrite getShortLinkDetails_run.
      change (resolve code
                (set_pending (pending w ++ [IncrementClicksTask code])
                   (record_op (OpQuery code) w)))
        with (resolve code w).
      rewrite Hr. reflexivity.
    + rewrite settle_detached.
      rewrite (details_after_task Applied code w r Hr). reflexivity.
    + intros reason. rewrite settle_detached.
      apply (details_after_task (Rejected reason) code w r Hr).
Qed.

Lemma getLongUrl_counts_click_when_applied_witness :
  fst (getLongUrl "4fve9f" takenWorld) = Ok "https://example.org/"
  /\ fst (getShortLinkDetails "4fve9f"
            (EventLoop.settle 0 Applied
               (snd (getLongUrl "4fve9f" takenWorld))))
     = Ok (ShortLinkResponseDto.make
             "4fve9f" "https://example.org/"
             ("http://localhost:3000" ++ "/" ++ "4fve9f")
             1690000000000 (3 + 1)).
Proof.
  pose proof (proj2 (getLongUrl_counts_click_when_applied
                       "4fve9f" takenWorld)
                (mkShortLink "https://example.org/" "4fve9f"
                             1690000000000 3 None) eq_refl) as H.
  split.
  - exact (proj1 H).
  - exact (proj1 (proj2 (proj2 (proj2 (proj2 H))))).
Defined.

(** C3 fails as it is worded.  In [takenWorld] the code [4fve9f] resolves
    to a record with 3 clicks.  [getLongUrl] returns its long URL; the
    details call that follows at once reports 3 clicks, and so does the
    one made after the detached update was rejected by the store: in
    neither case is the count 4.  Hence the count is not higher by 1
    after every successful [getLongUrl], whatever becomes of the detached
    update. *)
Lemma getLongUrl_click_can_be_lost :
  let w1 := snd (getLongUrl "4fve9f" takenWorld) in
  let w2 := EventLoop.settle 0 (Rejected "UNAVAILABLE") w1 in
  resolve "4fve9f" takenWorld
  = Some (mkShortLink "https://example.org/" "4fve9f" 1690000000000 3 None)
  /\ fst (getLongUrl "4fve9f" takenWorld) = Ok "https://example.org/"
  /\ fst (getShortLinkDetails "4fve9f" w1)
     = Ok (ShortLinkResponseDto.make
             "4fve9f" "https://example.org/" "http://localhost:3000/4fve9f"
             1690000000000 3)
  /\ fst (getShortLinkDetails "4fve9f" w2)
     = Ok (ShortLinkResponseDto.make
             "4fve9f" "https://example.org/" "http://localhost:3000/4fve9f"
             1690000000000 3)
  /\ pending w2 = []
  /\ ~ (forall code w o r,
          resolve code w = Some r ->
          exists s,
            fst (getShortLinkDetails code
                   (EventLoop.settle (List.length (pending w)) o
                      (snd (getLongUrl code w))))
            = Ok s
            /\ ShortLinkResponseDto.clicks s = (clicks r + 1)%Z).
Proof.
  cbv zeta.
  split; [reflexivity|]. split; [reflexivity|]. split; [reflexivity|].
  split; [reflexivity|]. split; [reflexivity|].
  intros H.
  destruct (H "4fve9f" takenWorld (Rejected "UNAVAILABLE") _ eq_refl)
    as (s & Hs & Hc).
  cbn in Hs. inversion Hs. subst s. cbn in Hc. discriminate.
Qed.

(** C6.  For a code that resolves to a record, [getLongUrl] returns the
    stored long URL before the detached update has run, so the value is
    the same whether the store then applies or rejects the update.  The
    task itself never throws.  After it has settled it is no longer
    pending, whatever the outcome, and one increment was issued, not
    more; a rejection leaves the collection as it was and writes one line
    to the console. *)
Theorem getLongUrl_result_independent_of_increment
        (code : string) (w : World) (r : ShortLink) (o : StoreOutcome) :
  resolve code w = Some r ->
  let w1 := snd (getLongUrl code w) in
  let w2 := EventLoop.settle (List.length (pending w)) o w1 in
  fst (getLongUrl code w) = Ok (longUrl r)
  /\ (forall w', fst (EventLoop.runTask o (IncrementClicksTask code) w')
                 = Ok tt)
  /\ pending w2 = pending w
  /\ (exists id,
        oplog w2
        = (oplog w ++ [OpQuery code; OpQuery code; OpIncrement id 1])%list)
  /\ match o with
     | Applied => console w2 = console w
     | Rejected reason =>
         docs w2 = docs w
         /\ console w2
            = (console w
                 ++ [("Failed to increment clicks:" ++ " "
                      ++ reason)%string])%list
     end.
Proof.
  intros Hr w1 w2. subst w1 w2.
  rewrite getLongUrl_run, Hr. cbn [fst snd].
  split; [reflexivity|]. split.
  - intros w'. rewrite runTask_run.
    destruct (Db.matching code (docs w')); [|destruct o]; reflexivity.
  - rewrite settle_detached, runTask_run. cbn [docs record_op].
    unfold resolve in Hr.
    destruct (Db.matching code (docs w)) as [|d rest]; [discriminate|].
    destruct o as [|reason]; cbn [snd];
      (split; [reflexivity|]); (split; [|repeat split]);
      exists (ref_id d); cbn; rewrite <- !app_assoc; reflexivity.
Qed.

Lemma getLongUrl_result_independent_of_increment_witness :
  fst (getLongUrl "4fve9f" takenWorld) = Ok "https://example.org/"
  /\ console (EventLoop.settle 0 (Rejected "UNAVAILABLE")
                (snd (getLongUrl "4fve9f" takenWorld)))
     = ([] ++ [("Failed to increment clicks:" ++ " "
                ++ "UNAVAILABLE")%string])%list.
Proof.
  pose proof (getLongUrl_result_independent_of_increment
                "4fve9f" takenWorld
                (mkShortLink "https://example.org/" "4fve9f"
                             1690000000000 3 None)
                (Rejected "UNAVAILABLE") eq_refl) as H.
  split.
  - exact (proj1 H).
  - exact (proj2 (proj2 (proj2 (proj2 (proj2 H))))).
Defined.

(** ** Validation at the HTTP surface *)

Lemma check_failed (message : string) : Validation.check false message <> [].
Proof. discriminate. Qed.

Lemma app_not_nil_r {A : Type} (xs ys : list A) :
  ys <> [] -> (xs ++ ys)%list <> [].
Proof. destruct xs; cbn; [auto | discriminate]. Qed.

Lemma app_not_nil_l {A : Type} (xs ys : list A) :
  xs <> [] -> (xs ++ ys)%list <> [].
Proof. destruct xs; cbn; [congruence | discriminate]. Qed.

Lemma matchesAlias_bad_char (alias : string) (c : ascii) :
  In c (list_ascii_of_string alias) ->
  Validation.aliasChar c = false ->
  Validation.matchesAlias alias = false.
Proof.
  intros Hin Hbad. unfold Validation.matchesAlias.
  destruct alias as [|a alias]; [reflexivity|].
  destruct (forallb Validation.aliasChar
              (list_ascii_of_string (String a alias))) eqn:Hall;
    [|reflexivity].
  rewrite forallb_forall in Hall. specialize (Hall c Hin). congruence.
Qed.

(** C7.  A request to [POST /shorten] whose alias is shorter than 3
    characters, longer than 50, or holds a character outside letters,
    digits, hyphen and underscore is answered with a
    [BadRequestException] (status 400) that lists at least one violation.
    The world after the call is the world before it: the service was not
    entered, no store call was issued, nothing was drawn. *)
Theorem invalid_alias_rejected_before_store
        (isURL : string -> bool) (body : CreateShortLinkDto.t) (ip : string)
        (w : World) (alias : string) :
  CreateShortLinkDto.customAlias body = Some alias ->
  (String.length alias < 3
   \/ 50 < String.length alias
   \/ exists c, In c (list_ascii_of_string alias)
                /\ Validation.aliasChar c = false) ->
  exists messages,
    messages <> []
    /\ LinkShortenerController.createShortLink isURL body ip w
       = (Err (BadRequestException messages), w)
    /\ getStatus (BadRequestException messages) = 400%Z
    /\ oplog (snd (LinkShortenerController.createShortLink isURL body ip w))
       = oplog w.
Proof.
  intros Halias Hbad.
  assert (Hviol : Validation.validateCreate isURL body <> []).
  { unfold Validation.validateCreate. rewrite Halias.
    apply app_not_nil_r.
    destruct Hbad as [Hshort | [Hlong | (c & Hin & Hc)]].
    - apply app_not_nil_l. unfold Validation.minLength.
      replace (Nat.leb 3 (String.length alias)) with false
        by (symmetry; apply Nat.leb_gt; lia).
      apply check_failed.
    - apply app_not_nil_r, app_not_nil_l. unfold Validation.maxLength.
      replace (Nat.leb (String.length alias) 50) with false
        by (symmetry; apply Nat.leb_gt; lia).
      apply check_failed.
    - apply app_not_nil_r, app_not_nil_r.
      rewrite (matchesAlias_bad_char alias c Hin Hc). apply check_failed. }
  exists (Validation.validateCreate isURL body).
  unfold LinkShortenerController.createShortLink, bind, Validation.pipe.
  destruct (Validation.validateCreate isURL body) as [|m ms];
    [congruence|].
  cbn. repeat split. discriminate.
Qed.

(** C7 at concrete inputs: a two-character alias, and one with a space. *)
Lemma invalid_alias_rejected_before_store_witness :
  (exists messages,
      messages <> []
      /\ LinkShortenerController.createShortLink
           (fun _ => true)
           (CreateShortLinkDto.make "https://x.com" (Some "ab"))
           "203.0.113.7" emptyWorld
         = (Err (BadRequestException messages), emptyWorld)
      /\ getStatus (BadRequestException messages) = 400%Z
      /\ oplog (snd (LinkShortenerController.createShortLink
                       (fun _ => true)
                       (CreateShortLinkDto.make "https://x.com" (Some "ab"))
                       "203.0.113.7" emptyWorld))
         = oplog emptyWorld)
  /\ Validation.aliasChar " "%char = false.
Proof.
  split; [|reflexivity].
  apply (invalid_alias_rejected_before_store
           (fun _ => true)
           (CreateShortLinkDto.make "https://x.com" (Some "ab"))
           "203.0.113.7" emptyWorld "ab").
  - reflexivity.
  - left. cbn. lia.
Defined.

(** ** Responses and the creator's address *)

Lemma createShortLink_run (dto : CreateShortLinkDto.t) (ip : option string)
      (w : World) :
  createShortLink dto ip w
  = match candidateCode dto w with
    | (Ok code, w1) =>
        match resolve code w1 with
        | Some _ =>
            (Err (ConflictException (conflictMessage code)),
             record_op (OpQuery code) w1)
        | None =>
            let record :=
              mkShortLink (CreateShortLinkDto.longUrl dto) code (clock w1)
                          0 ip in
            (Ok (summaryOf (baseUrl w1) record),
             record_op (OpAdd record)
               (set_nextId (S (nextId w1))
                  (set_docs (docs w1 ++ [mkDoc (nextId w1) record])
                            (record_op (OpQuery code) w1))))
        end
    | (Err e, w1) => (Err e, w1)
    end.
Proof.
  unfold createShortLink, bind at 1.
  destruct (candidateCode dto w) as [[code|e] w1]; [|reflexivity].
  unfold bind at 1. rewrite findByShortCode_run.
  destruct (resolve code w1); reflexivity.
Qed.

Lemma matching_sameButIp (code : string) (xs ys : list Doc) :
  Forall2 (fun d1 d2 => sameButIp (data d1) (data d2)) xs ys ->
  Forall2 (fun d1 d2 => sameButIp (data d1) (data d2))
          (Db.matching code xs) (Db.matching code ys).
Proof.
  induction 1 as [|x y xs ys Hxy _ IH]; [constructor|].
  unfold Db.matching in *. cbn [filter].
  destruct Hxy as (Hl & Hs & Hrest). rewrite <- Hs.
  destruct (String.eqb (shortCode (data x)) code); [|exact IH].
  constructor; [|exact IH]. repeat split; tauto.
Qed.

(** C9.  The summary built from a record has the five properties
    [shortCode], [longUrl], [shortUrl], [createdAt] and [clicks], and no
    [creatorIp].  It is the same for two records that differ in
    [creatorIp] only.  [createShortLink] returns the same value whatever
    creator address it is given, and [getShortLinkDetails] returns the
    same value in two worlds whose collections differ in [creatorIp]
    fields only; for a code that resolves, that value repeats the stored
    [shortCode], [longUrl], [createdAt] and [clicks]. *)
Theorem responses_do_not_expose_creatorIp :
  (forall s w,
      exists r,
        fst (buildResponse s w) = Ok r
        /\ map fst (ShortLinkResponseDto.properties r)
           = ["shortCode"; "longUrl"; "shortUrl"; "createdAt"; "clicks"]
        /\ ~ In "creatorIp" (map fst (ShortLinkResponseDto.properties r)))
  /\ (forall s1 s2 w,
         sameButIp s1 s2 -> buildResponse s1 w = buildResponse s2 w)
  /\ (forall dto ip1 ip2 w,
         fst (createShortLink dto ip1 w) = fst (createShortLink dto ip2 w))
  /\ (forall code w1 w2,
         baseUrl w1 = baseUrl w2 ->
         Forall2 (fun d1 d2 => sameButIp (data d1) (data d2))
                 (docs w1) (docs w2) ->
         fst (getShortLinkDetails code w1)
         = fst (getShortLinkDetails code w2))
  /\ (forall code w r,
         resolve code w = Some r ->
         fst (getShortLinkDetails code w)
         = Ok (ShortLinkResponseDto.make
                 (shortCode r) (longUrl r) (baseUrl w ++ "/" ++ shortCode r)
                 (createdAt r) (clicks r))).
Proof.
  split; [|split; [|split; [|split]]].
  - intros s w. eexists. split; [reflexivity|]. split; [reflexivity|].
    cbn. intros H. repeat (destruct H as [H | H]; [discriminate|]).
    exact H.
  - intros s1 s2 w (Hl & Hs & Hc & Hk).
    unfold buildResponse, config_url, bind, ret.
    rewrite Hl, Hs, Hc, Hk. reflexivity.
  - intros dto ip1 ip2 w. rewrite !createShortLink_run.
    destruct (candidateCode dto w) as [[code|e] w1]; [|reflexivity].
    destruct (resolve code w1); reflexivity.
  - intros code w1 w2 Hbase Hdocs. rewrite !getShortLinkDetails_run.
    unfold resolve. apply (matching_sameButIp code) in Hdocs.
    destruct Hdocs as [|d1 d2 r1 r2 (Hl & Hs & Hc & Hk) _];
      [reflexivity|].
    cbn [fst]. rewrite Hbase, Hl, Hs, Hc, Hk. reflexivity.
  - intros code w r Hr. rewrite getShortLinkDetails_run, Hr. reflexivity.
Qed.

(** C9 at a concrete input: the same collection with and without the
    creator's address. *)
Lemma responses_do_not_expose_creatorIp_witness :
  fst (getShortLinkDetails "4fve9f" takenWorld)
  = fst (getShortLinkDetails "4fve9f"
           (set_docs [mkDoc 0 (mkShortLink "https://example.org/" "4fve9f"
                                 1690000000000 3 (Some "203.0.113.7"))]
                     takenWorld)).
Proof.
  apply (proj1 (proj2 (proj2 (proj2 responses_do_not_expose_creatorIp)))).
  - reflexivity.
  - constructor; [|constructor]. repeat split.
Defined.

(** ** Histories of records *)

Lemma candidateCode_keeps_store (dto : CreateShortLinkDto.t) (w : World) :
  docs (snd (candidateCode dto w)) = docs w
  /\ nextId (snd (candidateCode dto w)) = nextId w.
Proof.
  unfold candidateCode, generateShortCode, Math_random, bind, ret.
  destruct (CreateShortLinkDto.customAlias dto) as [[|c s]|]; cbn;
    split; reflexivity.
Qed.

(** The effect of one step on the collection and on the next identifier. *)
Lemma step_effect (op : Op) (w : World) :
  (docs (step op w) = docs w /\ nextId (step op w) = nextId w)
  \/ (exists r, docs (step op w) = (docs w ++ [mkDoc (nextId w) r])%list
                /\ nextId (step op w) = S (nextId w))
  \/ (exists id, docs (step op w) = Db.incrementAt id 1 (docs w)
                 /\ nextId (step op w) = nextId w).
Proof.
  destruct op as [dto ip | code | code | o code | i o]; cbn [step].
  - rewrite createShortLink_run.
    pose proof (candidateCode_keeps_store dto w) as [Hd Hn].
    destruct (candidateCode dto w) as [[code|e] w1]; cbn [snd] in Hd, Hn.
    + destruct (resolve code w1).
      * left. cbn. auto.
      * right. left. eexists. cbn. rewrite Hd, Hn. split; reflexivity.
    + left. auto.
  - rewrite getLongUrl_run. destruct (resolve code w); left; split;
      reflexivity.
  - rewrite getShortLinkDetails_run. destruct (resolve code w); left; split;
      reflexivity.
  - rewrite incrementClicks_run.
    destruct (Db.matching code (docs w)) as [|d rest];
      [left; split; reflexivity|].
    destruct o; [right; right; exists (ref_id d) | left]; split; reflexivity.
  - unfold EventLoop.settle.
    destruct (nth_error (pending w) i) as [[code]|];
      [|left; split; reflexivity].
    rewrite runTask_run. cbn [docs set_pending].
    destruct (Db.matching code (docs w)) as [|d rest];
      [left; split; reflexivity|].
    destruct o; [right; right; exists (ref_id d) | left]; split; reflexivity.
Qed.

Lemma step_store_change (op : Op) (w : World) :
  StoreChange (docs w) (docs (step op w)).
Proof.
  destruct (step_effect op w) as [[-> _] | [(r & -> & _) | (id & -> & _)]];
    constructor.
Qed.

Lemma evolved_refl (r : ShortLink) : evolved r r.
Proof. unfold evolved. repeat split; lia. Qed.

Lemma evolved_trans (a b c : ShortLink) :
  evolved a b -> evolved b c -> evolved a c.
Proof.
  unfold evolved. intros (H1 & H2 & H3 & H4 & H5) (K1 & K2 & K3 & K4 & K5).
  repeat split; try congruence. lia.
Qed.

Lemma storeChange_evolves (ds ds' : list Doc) :
  StoreChange ds ds' ->
  forall id d,
    find (fun x => Nat.eqb (ref_id x) id) ds = Some d ->
    exists d',
      find (fun x => Nat.eqb (ref_id x) id) ds' = Some d'
      /\ evolved (data d) (data d').
Proof.
  intros Hchange id d Hfind. destruct Hchange as [ds | ds doc | ds id'].
  - exists d. split; [exact Hfind | apply evolved_refl].
  - exists d. split; [|apply evolved_refl].
    induction ds as [|x ds IH]; [discriminate|].
    cbn in Hfind |- *.
    destruct (Nat.eqb (ref_id x) id); [exact Hfind | apply IH, Hfind].
  - rewrite find_incrementAt, Hfind.
    eexists. split; [reflexivity|].
    destruct (Nat.eqb (ref_id d) id'); [|apply evolved_refl].
    unfold evolved. cbn. repeat split. lia.
Qed.

Lemma step_evolves (op : Op) (w : World) (id : DocId) (r : ShortLink) :
  docAt id w = Some r ->
  exists r', docAt id (step op w) = Some r' /\ evolved r r'.
Proof.
  unfold docAt. intros H.
  destruct (find (fun d => Nat.eqb (ref_id d) id) (docs w)) as [d|] eqn:Hf;
    [|discriminate].
  inversion H; subst r.
  destruct (storeChange_evolves _ _ (step_store_change op w) id d Hf)
    as (d' & Hf' & He).
  exists (data d'). rewrite Hf'. split; [reflexivity | exact He].
Qed.

(** C5.  Take any world and any sequence of calls of [createShortLink],
    [getLongUrl], [getShortLinkDetails] and [incrementClicks], detached
    tasks settling in between in any order and with any outcome.  A
    document that is stored under some reference before the sequence is
    stored under it afterwards, with the same [longUrl], [shortCode],
    [createdAt] and [creatorIp] and with [clicks] not lower.  Each single
    step leaves the collection as it is, appends one document, or applies
    the increment by 1 to one reference: there is no other write. *)
Theorem records_change_by_increment_only (ops : list Op) (w : World) :
  (forall id r,
      docAt id w = Some r ->
      exists r',
        docAt id (run ops w) = Some r'
        /\ longUrl r' = longUrl r
        /\ shortCode r' = shortCode r
        /\ createdAt r' = createdAt r
        /\ creatorIp r' = creatorIp r
        /\ (clicks r <= clicks r')%Z)
  /\ (forall op, StoreChange (docs (run ops w)) (docs (step op (run ops w)))).
Proof.
  split.
  - revert w. induction ops as [|op ops IH]; intros w id r Hr.
    + exists r. cbn. split; [exact Hr|]. repeat split. lia.
    + destruct (step_evolves op w id r Hr) as (r1 & Hr1 & He1).
      destruct (IH (step op w) id r1 Hr1) as (r2 & Hr2 & He2).
      exists r2. split; [exact Hr2|].
      exact (evolved_trans _ _ _ He1 He2).
  - intros op. apply step_store_change.
Qed.

(** C5 on a concrete history: two redirects, one update applied and one
    rejected, and a creation in between. *)
Lemma records_change_by_increment_only_witness :
  exists r',
    docAt 0 (run [CallGetLongUrl "4fve9f";
                  CallCreateShortLink
                    (CreateShortLinkDto.make "https://example.com/"
                                             (Some "my-link")) None;
                  CallGetLongUrl "4fve9f";
                  Settle 1 (Rejected "UNAVAILABLE");
                  Settle 0 Applied;
                  CallGetShortLinkDetails "4fve9f"]
                 takenWorld)
    = Some r'
    /\ longUrl r' = "https://example.org/"
    /\ shortCode r' = "4fve9f"
    /\ createdAt r' = 1690000000000%Z
    /\ creatorIp r' = None
    /\ (3 <= clicks r')%Z.
Proof.
  apply (proj1 (records_change_by_increment_only _ takenWorld) 0
               (mkShortLink "https://example.org/" "4fve9f" 1690000000000 3
                            None)).
  reflexivity.
Defined.

(** ** Identifiers stay unique *)

Lemma incrementAt_ids (id : DocId) (n : Z) (ds : list Doc) :
  map ref_id (Db.incrementAt id n ds) = map ref_id ds.
Proof.
  unfold Db.incrementAt. induction ds as [|d ds IH]; [reflexivity|].
  cbn [map]. rewrite IH. destruct (Nat.eqb (ref_id d) id); reflexivity.
Qed.

Lemma step_wellFormed (op : Op) (w : World) :
  wellFormed w -> wellFormed (step op w).
Proof.
  unfold wellFormed. intros [Hnd Hlt].
  destruct (step_effect op w)
    as [[-> ->] | [(r & -> & ->) | (id & -> & ->)]].
  - split; assumption.
  - split.
    + rewrite map_app. cbn [map ref_id].
      apply NoDup_app; [exact Hnd | repeat constructor; cbn; tauto |].
      intros a Hin [<- | []].
      apply in_map_iff in Hin. destruct Hin as (d & Hid & Hd).
      rewrite Forall_forall in Hlt. specialize (Hlt d Hd). lia.
    + apply Forall_app. split.
      * eapply Forall_impl; [|exact Hlt]. cbn. intros d Hd. lia.
      * constructor; [cbn; lia | constructor].
  - split.
    + rewrite incrementAt_ids. exact Hnd.
    + rewrite Forall_forall in Hlt |- *. intros d Hd.
      unfold Db.incrementAt in Hd. apply in_map_iff in Hd.
      destruct Hd as (d0 & <- & Hd0). specialize (Hlt d0 Hd0).
      destruct (Nat.eqb (ref_id d0) id); exact Hlt.
Qed.

Lemma run_wellFormed (ops : list Op) (w : World) :
  wellFormed w -> wellFormed (run ops w).
Proof.
  revert w. induction ops as [|op ops IH]; intros w Hw; [exact Hw|].
  apply IH, step_wellFormed, Hw.
Qed.

(* ================================================================== *)
(** * Further properties of the server *)
(* ================================================================== *)

(** ** The generator and the format of codes *)


Lemma check_nil (passed : bool) (message : string) :
  Validation.check passed message = [] <-> passed = true.
Proof. destruct passed; cbn; split; congruence. Qed.

Lemma validateParam_nil (code : string) :
  Validation.validateParam code = []
  <-> Validation.minLength 3 code = true
      /\ Validation.maxLength 50 code = true
      /\ Validation.matchesAlias code = true.
Proof.
  unfold Validation.validateParam.
  destruct (Validation.minLength 3 code), (Validation.maxLength 50 code),
    (Validation.matchesAlias code); cbn; split;
    try discriminate; intuition congruence.
Qed.





(** ** Creation followed by other calls *)

Lemma resolve_after_add (code : string) (w : World) (r : ShortLink) :
  resolve code w = None ->
  shortCode r = code ->
  match Db.matching code (docs w ++ [mkDoc (nextId w) r]) with
  | first :: _ => Some (data first)
  | [] => None
  end = Some r.
Proof.
  intros Hnone Hcode. rewrite matching_app. unfold resolve in Hnone.
  destruct (Db.matching code (docs w)); [|discriminate].
  cbn. rewrite Hcode, String.eqb_refl. reflexivity.
Qed.

Lemma candidateCode_frame (dto : CreateShortLinkDto.t) (w : World) :
  let w1 := snd (candidateCode dto w) in
  docs w1 = docs w /\ nextId w1 = nextId w /\ oplog w1 = oplog w
  /\ clock w1 = clock w /\ baseUrl w1 = baseUrl w
  /\ pending w1 = pending w /\ console w1 = console w.
Proof.
  unfold candidateCode, generateShortCode, Math_random, bind, ret.
  destruct (CreateShortLinkDto.customAlias dto) as [[|c s]|]; cbn;
    repeat split.
Qed.

(** What a successful [createShortLink] has done. *)
Lemma createShortLink_ok (dto : CreateShortLinkDto.t) (ip : option string)
      (w w' : World) (s : ShortLinkResponseDto.t) :
  createShortLink dto ip w = (Ok s, w') ->
  exists code r,
    fst (candidateCode dto w) = Ok code
    /\ resolve code w = None
    /\ r = mkShortLink (CreateShortLinkDto.longUrl dto) code (clock w) 0 ip
    /\ s = summaryOf (baseUrl w) r
    /\ docs w' = (docs w ++ [mkDoc (nextId w) r])%list
    /\ nextId w' = S (nextId w)
    /\ baseUrl w' = baseUrl w
    /\ pending w' = pending w
    /\ console w' = console w
    /\ resolve code w' = Some r.
Proof.
  rewrite createShortLink_run.
  pose proof (candidateCode_frame dto w) as (Hd & Hn & _ & Hc & Hb & Hp & Hk).
  destruct (candidateCode dto w) as [[code|e] w1]; cbn [snd fst] in *;
    [|discriminate].
  assert (Hres : resolve code w1 = resolve code w)
    by (unfold resolve; rewrite Hd; reflexivity).
  rewrite Hres. destruct (resolve code w) eqn:Hnone; [discriminate|].
  cbv zeta. intros H. inversion H. subst s w'. clear H.
  exists code. eexists. split; [reflexivity|]. split; [exact Hnone|].
  split; [reflexivity|]. rewrite Hc, Hb.
  split; [reflexivity|]. cbn. rewrite Hd, Hn.
  repeat (split; [reflexivity || assumption|]).
  unfold resolve. cbn [docs]. apply (resolve_after_add code w); auto.
Qed.

(** X3.  A link that [createShortLink] has just returned can be read
    back: [getShortLinkDetails] on the returned code yields the very
    summary that was returned, and [getLongUrl] yields the long URL that
    was submitted. *)
Theorem created_link_reads_back
        (dto : CreateShortLinkDto.t) (ip : option string) (w w' : World)
        (s : ShortLinkResponseDto.t) :
  createShortLink dto ip w = (Ok s, w') ->
  fst (getShortLinkDetails (ShortLinkResponseDto.shortCode s) w') = Ok s
  /\ fst (getLongUrl (ShortLinkResponseDto.shortCode s) w')
     = Ok (CreateShortLinkDto.longUrl dto)
  /\ ShortLinkResponseDto.longUrl s = CreateShortLinkDto.longUrl dto
  /\ ShortLinkResponseDto.clicks s = 0%Z.
Proof.
  intros H. apply createShortLink_ok in H.
  destruct H as (code & r & _ & _ & Hr & Hs & _ & _ & Hb & _ & _ & Hres).
  subst s r. cbn [ShortLinkResponseDto.shortCode summaryOf shortCode] in *.
  rewrite getShortLinkDetails_run, getLongUrl_run, Hres, Hb.
  repeat split.
Qed.

Lemma created_link_reads_back_witness :
  fst (getLongUrl "my-link"
         (snd (createShortLink
                 (CreateShortLinkDto.make "https://example.com/a/b/c"
                                          (Some "my-link"))
                 None emptyWorld)))
  = Ok "https://example.com/a/b/c".
Proof.
  exact (proj1 (proj2 (created_link_reads_back
                         (CreateShortLinkDto.make "https://example.com/a/b/c"
                                                  (Some "my-link"))
                         None emptyWorld _ _ eq_refl))).
Defined.

(** ** Lookups *)

Lemma lookup_step_frame (op : Op) (w : World) :
  isLookup op = true ->
  docs (step op w) = docs w /\ baseUrl (step op w) = baseUrl w
  /\ console (step op w) = console w /\ nextId (step op w) = nextId w.
Proof.
  destruct op as [dto ip | code | code | o code | i o]; cbn [isLookup step];
    try discriminate; intros _.
  - rewrite getLongUrl_run. destruct (resolve code w); repeat split.
  - rewrite getShortLinkDetails_run. destruct (resolve code w); repeat split.
Qed.

(** X4.  Calls of [getShortLinkDetails] and [getLongUrl], in any number
    and order, leave the collection as it is, and until a detached update
    settles they change no answer: afterwards every code gets from
    [getShortLinkDetails] and from [getLongUrl] the result it would have
    got before, with the same click count. *)
Theorem lookups_change_no_answer (ops : list Op) (w : World) :
  forallb isLookup ops = true ->
  docs (run ops w) = docs w
  /\ forall code,
       fst (getShortLinkDetails code (run ops w))
       = fst (getShortLinkDetails code w)
       /\ fst (getLongUrl code (run ops w)) = fst (getLongUrl code w).
Proof.
  intros Hops.
  assert (H : docs (run ops w) = docs w /\ baseUrl (run ops w) = baseUrl w).
  { revert w. induction ops as [|op ops IH]; intros w; [split; reflexivity|].
    cbn in Hops. apply andb_true_iff in Hops. destruct Hops as [Hop Hrest].
    cbn [run]. destruct (IH Hrest (step op w)) as [Hd Hb].
    destruct (lookup_step_frame op w Hop) as (Hd' & Hb' & _).
    split; congruence. }
  destruct H as [Hd Hb]. split; [exact Hd|].
  intros code. rewrite !getShortLinkDetails_run, !getLongUrl_run.
  unfold resolve. rewrite Hd, Hb.
  destruct (Db.matching code (docs w)); split; reflexivity.
Qed.

Lemma lookups_change_no_answer_witness :
  fst (getShortLinkDetails "4fve9f"
         (run [CallGetShortLinkDetails "4fve9f"; CallGetLongUrl "4fve9f";
               CallGetShortLinkDetails "nobody"] takenWorld))
  = fst (getShortLinkDetails "4fve9f" takenWorld).
Proof.
  exact (proj1 (proj2 (lookups_change_no_answer
                         [CallGetShortLinkDetails "4fve9f";
                          CallGetLongUrl "4fve9f";
                          CallGetShortLinkDetails "nobody"]
                         takenWorld eq_refl) "4fve9f")).
Defined.

(** X5.  A conflict or a miss stores nothing.  When [createShortLink]
    throws a [ConflictException], the message is the one of its candidate
    code, that code was taken, and collection, next identifier, pending
    tasks and console are as they were.  When [getLongUrl] or
    [getShortLinkDetails] throws a [NotFoundException], the code resolved
    to nothing and the call did no more than its one query; in
    particular [getLongUrl] detached no counter update. *)
Theorem conflict_or_miss_stores_nothing :
  (forall dto ip w message,
      fst (createShortLink dto ip w) = Err (ConflictException message) ->
      let w' := snd (createShortLink dto ip w) in
      (exists code, fst (candidateCode dto w) = Ok code
                    /\ message = conflictMessage code
                    /\ resolve code w <> None)
      /\ docs w' = docs w /\ nextId w' = nextId w
      /\ pending w' = pending w /\ console w' = console w)
  /\ (forall code w message,
         fst (getLongUrl code w) = Err (NotFoundException message) ->
         resolve code w = None
         /\ message = notFoundRedirectMessage code
         /\ snd (getLongUrl code w) = record_op (OpQuery code) w)
  /\ (forall code w message,
         fst (getShortLinkDetails code w) = Err (NotFoundException message) ->
         resolve code w = None
         /\ message = notFoundMessage code
         /\ snd (getShortLinkDetails code w) = record_op (OpQuery code) w).
Proof.
  split; [|split].
  - intros dto ip w message. rewrite createShortLink_run.
    pose proof (candidateCode_frame dto w) as (Hd & Hn & _ & _ & _ & Hp & Hk).
    pose proof (candidateCode_total dto w) as (code & w1 & Hc).
    rewrite Hc in *. cbn [snd fst] in *.
    assert (Hres : resolve code w1 = resolve code w)
      by (unfold resolve; rewrite Hd; reflexivity).
    rewrite Hres.
    destruct (resolve code w) eqn:Hr; cbn; [|discriminate].
    intros H. inversion H.
    split; [exists code; repeat split; congruence|].
    repeat split; assumption.
  - intros code w message. rewrite getLongUrl_run.
    destruct (resolve code w); cbn; [discriminate|].
    intros H. inversion H. repeat split.
  - intros code w message. rewrite getShortLinkDetails_run.
    destruct (resolve code w); cbn; [discriminate|].
    intros H. inversion H. repeat split.
Qed.

Lemma conflict_or_miss_stores_nothing_witness :
  snd (getLongUrl "nobody" takenWorld)
  = record_op (OpQuery "nobody") takenWorld.
Proof.
  exact (proj2 (proj2 (proj1 (proj2 conflict_or_miss_stores_nothing)
                         "nobody" takenWorld _ eq_refl))).
Defined.

(** ** The routes *)

Lemma validateParam_violation (code : string) :
  (String.length code < 3
   \/ 50 < String.length code
   \/ exists c, In c (list_ascii_of_string code)
                /\ Validation.aliasChar c = false) ->
  Validation.validateParam code <> [].
Proof.
  intros Hbad Hnil. apply validateParam_nil in Hnil.
  destruct Hnil as (Hmin & Hmax & Hm).
  unfold Validation.minLength, Validation.maxLength in *.
  apply Nat.leb_le in Hmin, Hmax.
  destruct Hbad as [H | [H | (c & Hin & Hc)]]; try lia.
  rewrite (matchesAlias_bad_char code c Hin Hc) in Hm. discriminate.
Qed.

(** X6.  [GET /:shortCode] and [GET /api/links/:shortCode] answer a code
    that is shorter than 3 characters, longer than 50, or holds a
    character outside letters, digits, hyphen and underscore with a
    [BadRequestException] (status 400).  The world is untouched: no query
    reaches the store and no counter update is detached. *)
Theorem malformed_code_rejected_before_store (code : string) (w : World) :
  (String.length code < 3
   \/ 50 < String.length code
   \/ exists c, In c (list_ascii_of_string code)
                /\ Validation.aliasChar c = false) ->
  exists messages,
    messages <> []
    /\ LinkShortenerController.redirect code w
       = (Err (BadRequestException messages), w)
    /\ LinkShortenerController.getLinkDetails code w
       = (Err (BadRequestException messages), w)
    /\ getStatus (BadRequestException messages) = 400%Z.
Proof.
  intros Hbad. apply validateParam_violation in Hbad.
  exists (Validation.validateParam code).
  unfold LinkShortenerController.redirect,
    LinkShortenerController.getLinkDetails, bind, Validation.pipe.
  destruct (Validation.validateParam code) as [|m ms]; [congruence|].
  repeat split. discriminate.
Qed.

Lemma malformed_code_rejected_before_store_witness :
  exists messages,
    messages <> []
    /\ LinkShortenerController.redirect "a b c" takenWorld
       = (Err (BadRequestException messages), takenWorld)
    /\ LinkShortenerController.getLinkDetails "a b c" takenWorld
       = (Err (BadRequestException messages), takenWorld)
    /\ getStatus (BadRequestException messages) = 400%Z.
Proof.
  apply (malformed_code_rejected_before_store "a b c" takenWorld).
  right. right. exists " "%char. split; [cbn; tauto | reflexivity].
Defined.

Lemma app_nil_inv {A : Type} (xs ys : list A) :
  (xs ++ ys)%list = [] -> xs = [] /\ ys = [].
Proof. destruct xs; cbn; [auto | discriminate]. Qed.

Lemma validateCreate_alias (isURL : string -> bool)
      (body : CreateShortLinkDto.t) (alias : string) :
  CreateShortLinkDto.customAlias body = Some alias ->
  Validation.validateCreate isURL body = [] ->
  Validation.validateParam alias = [] /\ alias <> "".
Proof.
  unfold Validation.validateCreate. intros -> H.
  apply app_nil_inv in H. destruct H as [_ H].
  apply app_nil_inv in H. destruct H as [Hmin H].
  apply app_nil_inv in H. destruct H as [Hmax Hm].
  apply check_nil in Hmin, Hmax, Hm.
  split; [apply validateParam_nil; auto|].
  intros ->. discriminate.
Qed.

(** X7.  The alias rules of [POST /shorten] are the rules of the
    [shortCode] route parameter, so a link created with a custom alias is
    reachable: when [POST /shorten] with an alias succeeds, the code of
    the summary is that alias, [GET /:shortCode] on it answers 302 with
    the submitted long URL, and [GET /api/links/:shortCode] answers with
    the summary that the creation returned. *)
Theorem created_alias_is_reachable
        (isURL : string -> bool) (body : CreateShortLinkDto.t) (ip : string)
        (w w' : World) (alias : string) (s : ShortLinkResponseDto.t) :
  CreateShortLinkDto.customAlias body = Some alias ->
  LinkShortenerController.createShortLink isURL body ip w = (Ok s, w') ->
  ShortLinkResponseDto.shortCode s = alias
  /\ fst (LinkShortenerController.redirect alias w')
     = Ok (302%Z, CreateShortLinkDto.longUrl body)
  /\ fst (LinkShortenerController.getLinkDetails alias w') = Ok s.
Proof.
  intros Halias Hpost.
  unfold LinkShortenerController.createShortLink, bind at 1,
    Validation.pipe in Hpost.
  destruct (Validation.validateCreate isURL body) as [|m ms] eqn:Hv;
    [|discriminate].
  cbn [ret throw] in Hpost.
  destruct (validateCreate_alias isURL body alias Halias Hv) as [Hparam Hne].
  assert (Ht : Js.truthy (Some alias) = true)
    by (destruct alias; [congruence | reflexivity]).
  apply createShortLink_ok in Hpost.
  destruct Hpost
    as (code & r & Hcode & _ & Hr & Hs & _ & _ & Hb & _ & _ & Hres).
  rewrite (candidateCode_truthy body w alias Halias Ht) in Hcode.
  inversion Hcode. subst code s r.
  split; [reflexivity|].
  unfold LinkShortenerController.redirect,
    LinkShortenerController.getLinkDetails, bind at 1, bind at 2.
  rewrite Hparam. cbn [Validation.pipe ret].
  unfold bind. rewrite getLongUrl_run, getShortLinkDetails_run, Hres, Hb.
  split; reflexivity.
Qed.

Lemma created_alias_is_reachable_witness :
  fst (LinkShortenerController.redirect "my-link"
         (snd (LinkShortenerController.createShortLink
                 (fun _ => true)
                 (CreateShortLinkDto.make "https://example.com/a/b/c"
                                          (Some "my-link"))
                 "203.0.113.7" emptyWorld)))
  = Ok (302%Z, "https://example.com/a/b/c").
Proof.
  exact (proj1 (proj2 (created_alias_is_reachable
                         (fun _ => true)
                         (CreateShortLinkDto.make "https://example.com/a/b/c"
                                                  (Some "my-link"))
                         "203.0.113.7" emptyWorld _ "my-link" _
                         eq_refl eq_refl))).
Defined.

(** ** The uniqueness constraint *)

(** X8.  [IsAliasUniqueConstraint.validate] accepts the empty alias
    without touching the store.  For any other alias it issues one query,
    changes no document, and predicts the service: it returns [true]
    exactly when [createShortLink] with that alias would succeed, and
    [false] exactly when it would throw the conflict of that alias. *)
Theorem alias_validator_agrees_with_service (alias : string) (w : World) :
  (alias = "" -> IsAliasUniqueConstraint.validate alias w = (Ok true, w))
  /\ (alias <> "" ->
      snd (IsAliasUniqueConstraint.validate alias w)
      = record_op (OpQuery alias) w
      /\ forall url ip,
           (fst (IsAliasUniqueConstraint.validate alias w) = Ok true
            <-> exists s,
                  fst (createShortLink
                         (CreateShortLinkDto.make url (Some alias)) ip w)
                  = Ok s)
           /\ (fst (IsAliasUniqueConstraint.validate alias w) = Ok false
               <-> fst (createShortLink
                          (CreateShortLinkDto.make url (Some alias)) ip w)
                   = Err (ConflictException (conflictMessage alias)))).
Proof.
  split.
  - intros ->. reflexivity.
  - intros Hne.
    assert (Ht : Js.truthy (Some alias) = true)
      by (destruct alias; [congruence | reflexivity]).
    assert (Hrun : IsAliasUniqueConstraint.validate alias w
                   = (Ok (match resolve alias w with
                          | Some _ => false
                          | None => true
                          end),
                      record_op (OpQuery alias) w)).
    { unfold IsAliasUniqueConstraint.validate. rewrite Ht.
      unfold bind. rewrite findByShortCode_run. reflexivity. }
    rewrite Hrun. cbn [fst snd]. split; [reflexivity|].
    intros url ip. rewrite createShortLink_run.
    rewrite (candidateCode_truthy
               (CreateShortLinkDto.make url (Some alias)) w alias
               eq_refl Ht).
    destruct (resolve alias w) as [r|]; cbv zeta; cbn [fst];
      (split; split; intros H);
      try discriminate H; try reflexivity;
      try (eexists; reflexivity);
      destruct H as [s H]; discriminate H.
Qed.

Lemma alias_validator_agrees_with_service_witness :
  fst (IsAliasUniqueConstraint.validate "4fve9f" takenWorld) = Ok false.
Proof.
  apply (proj2 (proj2 (proj2 (alias_validator_agrees_with_service
                                "4fve9f" takenWorld)
                         ltac:(discriminate))
                  "https://example.com/" None)).
  reflexivity.
Defined.

(** ** The repository *)

Lemma find_id_fresh (n : DocId) (ds : list Doc) :
  Forall (fun d => ref_id d < n) ds ->
  find (fun d => Nat.eqb (ref_id d) n) ds = None.
Proof.
  induction 1 as [|d ds Hd _ IH]; [reflexivity|].
  cbn. replace (Nat.eqb (ref_id d) n) with false; [exact IH|].
  symmetry. apply Nat.eqb_neq. lia.
Qed.

Lemma find_id_app (id : DocId) (ds : list Doc) (doc : Doc) :
  find (fun d => Nat.eqb (ref_id d) id) (ds ++ [doc])
  = match find (fun d => Nat.eqb (ref_id d) id) ds with
    | Some d => Some d
    | None => if Nat.eqb (ref_id doc) id then Some doc else None
    end.
Proof.
  induction ds as [|d ds IH]; [reflexivity|].
  cbn. destruct (Nat.eqb (ref_id d) id); [reflexivity | exact IH].
Qed.

(** X9.  [create] returns the data under a new reference and the record
    can be found again: [findById] on that reference yields the data,
    while every other reference yields what it did before.
    [findByShortCode] yields the new record for its code when that code
    matched nothing before, and yields for every other code what it did
    before. *)
Theorem create_then_find (d : ShortLink) (w : World) :
  wellFormed w ->
  let w' := snd (LinkShortenerRepository.create d w) in
  fst (LinkShortenerRepository.create d w) = Ok (mkDoc (nextId w) d)
  /\ fst (findById (nextId w) w') = Ok (Some d)
  /\ (forall id, id <> nextId w ->
                 fst (findById id w') = fst (findById id w))
  /\ (fst (findByShortCode (shortCode d) w) = Ok None ->
      fst (findByShortCode (shortCode d) w') = Ok (Some d))
  /\ (forall code,
         code <> shortCode d ->
         fst (findByShortCode code w') = fst (findByShortCode code w))
  /\ wellFormed w'.
Proof.
  intros [Hnd Hlt] w'. subst w'.
  unfold LinkShortenerRepository.create, Db.add, findById, Db.get, bind, ret.
  cbn [fst snd docs record_op set_nextId set_docs nextId].
  split; [reflexivity|]. split; [|split; [|split; [|split]]].
  - rewrite find_id_app, (find_id_fresh _ _ Hlt). cbn.
    rewrite Nat.eqb_refl. reflexivity.
  - intros id Hid. rewrite find_id_app. cbn [ref_id].
    destruct (find (fun d0 => Nat.eqb (ref_id d0) id) (docs w));
      [reflexivity|].
    replace (Nat.eqb (nextId w) id) with false; [reflexivity|].
    symmetry. apply Nat.eqb_neq. congruence.
  - rewrite !findByShortCode_run. cbn [fst].
    unfold resolve. cbn [docs record_op set_nextId set_docs].
    rewrite matching_app.
    destruct (Db.matching (shortCode d) (docs w)) as [|first rest];
      [|discriminate].
    intros _. cbn. rewrite String.eqb_refl. reflexivity.
  - intros code Hcode. rewrite !findByShortCode_run. cbn [fst].
    unfold resolve. cbn [docs record_op set_nextId set_docs].
    rewrite matching_app. cbn.
    replace (String.eqb (shortCode d) code) with false
      by (symmetry; apply String.eqb_neq; congruence).
    rewrite app_nil_r. reflexivity.
  - unfold wellFormed. cbn [docs nextId record_op set_nextId set_docs].
    split.
    + rewrite map_app. cbn [map ref_id].
      apply NoDup_app; [exact Hnd | repeat constructor; cbn; tauto |].
      intros a Hin [<- | []].
      apply in_map_iff in Hin. destruct Hin as (d0 & Hid & Hd0).
      rewrite Forall_forall in Hlt. specialize (Hlt d0 Hd0). lia.
    + apply Forall_app. split.
      * eapply Forall_impl; [|exact Hlt]. cbn. intros d0 Hd0. lia.
      * constructor; [cbn; lia | constructor].
Qed.

Lemma create_then_find_witness :
  fst (findById 1
         (snd (LinkShortenerRepository.create
                 (mkShortLink "https://example.com/" "4fve9f"
                              1700000000000 0 None)
                 takenWorld)))
  = Ok (Some (mkShortLink "https://example.com/" "4fve9f"
                          1700000000000 0 None)).
Proof.
  apply (proj1 (proj2 (create_then_find
                         (mkShortLink "https://example.com/" "4fve9f"
                                      1700000000000 0 None)
                         takenWorld
                         ltac:(split; repeat constructor; cbn; tauto)))).
Defined.

(** ** Invariants over any history *)

(** One step, with what is known of an added record. *)
Lemma step_cases (op : Op) (w : World) :
  docs (step op w) = docs w
  \/ (exists r, docs (step op w) = (docs w ++ [mkDoc (nextId w) r])%list
                /\ resolve (shortCode r) w = None
                /\ clicks r = 0%Z)
  \/ (exists id, docs (step op w) = Db.incrementAt id 1 (docs w)).
Proof.
  destruct (step_effect op w) as [[H _] | [(r & H & _) | (id & H & _)]];
    [left; exact H | | right; right; exists id; exact H].
  destruct op as [dto ip | code | code | o code | i o].
  - cbn [step] in *.
    destruct (createShortLink dto ip w) as [[s|e] w'] eqn:Hrun.
    + apply createShortLink_ok in Hrun.
      destruct Hrun as (code & r' & _ & Hnone & Hr' & _ & Hd & _).
      right. left. exists r'. cbn [snd]. subst r'. cbn. auto.
    + left. revert Hrun. rewrite createShortLink_run.
      pose proof (candidateCode_frame dto w) as (Hd & _).
      destruct (candidateCode dto w) as [[code|e'] w1]; cbn [snd] in Hd.
      * destruct (resolve code w1); intros Hrun; inversion Hrun;
          cbn; exact Hd.
      * intros Hrun. inversion Hrun. subst. exact Hd.
  - cbn [step] in *. rewrite getLongUrl_run in *.
    destruct (resolve code w); left; reflexivity.
  - cbn [step] in *. rewrite getShortLinkDetails_run in *.
    destruct (resolve code w); left; reflexivity.
  - cbn [step] in *. rewrite incrementClicks_run in *.
    destruct (Db.matching code (docs w)) as [|d rest];
      [left; reflexivity|].
    destruct o; [right; right; exists (ref_id d) | left]; reflexivity.
  - cbn [step] in *. unfold EventLoop.settle in *.
    destruct (nth_error (pending w) i) as [[code]|]; [|left; reflexivity].
    rewrite runTask_run in *. cbn [docs set_pending] in *.
    destruct (Db.matching code (docs w)) as [|d rest];
      [left; reflexivity|].
    destruct o; [right; right; exists (ref_id d) | left]; reflexivity.
Qed.

Lemma incrementAt_codes (id : DocId) (n : Z) (ds : list Doc) :
  map (fun d => shortCode (data d)) (Db.incrementAt id n ds)
  = map (fun d => shortCode (data d)) ds.
Proof.
  unfold Db.incrementAt. induction ds as [|d ds IH]; [reflexivity|].
  cbn [map]. rewrite IH. destruct (Nat.eqb (ref_id d) id); reflexivity.
Qed.

Lemma unresolved_code_absent (code : string) (w : World) :
  resolve code w = None ->
  ~ In code (map (fun d => shortCode (data d)) (docs w)).
Proof.
  unfold resolve, Db.matching. intros Hnone Hin.
  apply in_map_iff in Hin. destruct Hin as (d & Hcode & Hd).
  assert (Hf : In d (filter (fun d0 => String.eqb (shortCode (data d0)) code)
                            (docs w))).
  { apply filter_In. split; [exact Hd|]. apply String.eqb_eq. exact Hcode. }
  destruct (filter (fun d0 => String.eqb (shortCode (data d0)) code)
                   (docs w)); [exact Hf | discriminate].
Qed.

(** X10.  Short codes stay unique: if no two stored documents carry the
    same code, then this still holds after any sequence of service calls,
    [incrementClicks] calls and settled tasks, the calls running one
    after the other. *)
Theorem codes_stay_unique (ops : list Op) (w : World) :
  uniqueCodes w -> uniqueCodes (run ops w).
Proof.
  revert w. induction ops as [|op ops IH]; intros w Hw; [exact Hw|].
  cbn [run]. apply IH. unfold uniqueCodes in *.
  destruct (step_cases op w) as [-> | [(r & -> & Hnone & _) | (id & ->)]].
  - exact Hw.
  - rewrite map_app. cbn [map data].
    apply NoDup_app; [exact Hw | repeat constructor; cbn; tauto |].
    intros a Hin [<- | []].
    exact (unresolved_code_absent _ _ Hnone Hin).
  - rewrite incrementAt_codes. exact Hw.
Qed.

Lemma codes_stay_unique_witness :
  uniqueCodes
    (run [CallCreateShortLink
            (CreateShortLinkDto.make "https://example.com/" None) None;
          CallCreateShortLink
            (CreateShortLinkDto.make "https://example.com/" (Some "my-link"))
            None;
          CallGetLongUrl "my-link";
          Settle 0 Applied]
         takenWorld).
Proof.
  apply (codes_stay_unique _ takenWorld).
  unfold uniqueCodes. cbn. repeat constructor. cbn. tauto.
Defined.

(** X11.  Click counters never become negative: a record starts at zero
    and is changed by increments of 1 only, so counters that are
    non-negative stay so over any sequence of calls and settled tasks. *)
Theorem clicks_stay_non_negative (ops : list Op) (w : World) :
  clicksCounted w -> clicksCounted (run ops w).
Proof.
  revert w. induction ops as [|op ops IH]; intros w Hw; [exact Hw|].
  cbn [run]. apply IH. unfold clicksCounted in *.
  destruct (step_cases op w) as [-> | [(r & -> & _ & Hzero) | (id & ->)]].
  - exact Hw.
  - apply Forall_app. split; [exact Hw|].
    constructor; [cbn; lia | constructor].
  - unfold Db.incrementAt. rewrite Forall_forall in Hw |- *.
    intros d Hd. apply in_map_iff in Hd. destruct Hd as (d0 & <- & Hd0).
    specialize (Hw d0 Hd0).
    destruct (Nat.eqb (ref_id d0) id); cbn; lia.
Qed.

Lemma clicks_stay_non_negative_witness :
  clicksCounted
    (run [CallGetLongUrl "4fve9f"; Settle 0 Applied;
          CallIncrementClicks Applied "4fve9f"]
         takenWorld).
Proof.
  apply (clicks_stay_non_negative _ takenWorld).
  unfold clicksCounted. cbn. repeat constructor. cbn. lia.
Defined.

(** ** Counting redirects *)

Lemma increment_increment (n m : Z) (r : ShortLink) :
  Db.increment n (Db.increment m r) = Db.increment (m + n) r.
Proof.
  unfold Db.increment. cbn. f_equal. lia.
Qed.

Lemma increment_zero (r : ShortLink) : Db.increment 0 r = r.
Proof.
  destruct r. unfold Db.increment. cbn. f_equal. lia.
Qed.

Lemma redirects_detach (code : string) (r : ShortLink) (n : nat) :
  forall w,
    resolve code w = Some r ->
    docs (run (repeat (CallGetLongUrl code) n) w) = docs w
    /\ baseUrl (run (repeat (CallGetLongUrl code) n) w) = baseUrl w
    /\ pending (run (repeat (CallGetLongUrl code) n) w)
       = (pending w ++ repeat (IncrementClicksTask code) n)%list.
Proof.
  induction n as [|n IH]; intros w Hr.
  - cbn. rewrite app_nil_r. repeat split.
  - cbn [repeat run step]. rewrite getLongUrl_run, Hr. cbn [snd].
    destruct (IH (set_pending (pending w ++ [IncrementClicksTask code])
                              (record_op (OpQuery code) w)) Hr)
      as (Hd & Hb & Hp).
    rewrite Hd, Hb, Hp. cbn [docs baseUrl pending set_pending record_op].
    rewrite <- app_assoc. repeat split.
Qed.

Lemma settle_first_applied (code : string) (w : World) (d : Doc)
      (rest : list Doc) (tasks : list Task) :
  pending w = IncrementClicksTask code :: tasks ->
  Db.matching code (docs w) = d :: rest ->
  let w' := EventLoop.settle 0 Applied w in
  pending w' = tasks
  /\ baseUrl w' = baseUrl w
  /\ resolve code w' = Some (Db.increment 1 (data d)).
Proof.
  intros Hp Hm w'. subst w'. unfold EventLoop.settle.
  rewrite Hp. cbn [nth_error EventLoop.removeAt].
  rewrite runTask_run. cbn [docs set_pending]. rewrite Hm. cbn [snd].
  split; [reflexivity|]. split; [reflexivity|].
  unfold resolve. cbn [docs set_docs].
  rewrite (matching_after_increment _ _ _ _ _ Hm). reflexivity.
Qed.

Lemma settles_count (code : string) (n : nat) :
  forall w r,
    resolve code w = Some r ->
    pending w = repeat (IncrementClicksTask code) n ->
    resolve code (run (repeat (Settle 0 Applied) n) w)
    = Some (Db.increment (Z.of_nat n) r)
    /\ baseUrl (run (repeat (Settle 0 Applied) n) w) = baseUrl w
    /\ pending (run (repeat (Settle 0 Applied) n) w) = [].
Proof.
  induction n as [|n IH]; intros w r Hr Hp.
  - cbn. rewrite increment_zero. auto.
  - cbn [repeat run step].
    unfold resolve in Hr.
    destruct (Db.matching code (docs w)) as [|d rest] eqn:Hm;
      [discriminate|].
    inversion Hr. subst r.
    destruct (settle_first_applied code w d rest _ Hp Hm)
      as (Hq & Hb & Hres).
    destruct (IH (EventLoop.settle 0 Applied w) _ Hres Hq)
      as (Hres' & Hb' & Hq').
    rewrite Hres', Hb', Hq', Hb, increment_increment.
    replace (1 + Z.of_nat n)%Z with (Z.of_nat (S n)) by lia.
    repeat split.
Qed.

(** X12.  No click is lost or counted twice when the store applies every
    update: after [n] calls of [getLongUrl] on a code that resolves,
    followed by the settling of the [n] detached updates,
    [getShortLinkDetails] reports a count higher by exactly [n], and no
    task is left pending. *)
Theorem redirects_are_counted (code : string) (n : nat) (w : World)
        (r : ShortLink) :
  resolve code w = Some r ->
  pending w = [] ->
  let w' := run (repeat (CallGetLongUrl code) n
                 ++ repeat (Settle 0 Applied) n) w in
  fst (getShortLinkDetails code w')
  = Ok (ShortLinkResponseDto.make
          (shortCode r) (longUrl r) (baseUrl w ++ "/" ++ shortCode r)
          (createdAt r) (clicks r + Z.of_nat n))
  /\ pending w' = [].
Proof.
  intros Hr Hp w'. subst w'.
  assert (Hrun : forall xs ys v, run (xs ++ ys) v = run ys (run xs v)).
  { induction xs as [|x xs IHxs]; intros ys v; [reflexivity|].
    cbn. apply IHxs. }
  rewrite Hrun.
  destruct (redirects_detach code r n w Hr) as (Hd & Hb & Hq).
  rewrite Hp in Hq. cbn [app] in Hq.
  destruct (settles_count code n
              (run (repeat (CallGetLongUrl code) n) w) r)
    as (Hres & Hb' & Hq').
  - unfold resolve. rewrite Hd. exact Hr.
  - exact Hq.
  - rewrite getShortLinkDetails_run, Hres, Hb', Hb.
    split; [reflexivity | exact Hq'].
Qed.

Lemma redirects_are_counted_witness :
  fst (getShortLinkDetails "4fve9f"
         (run (repeat (CallGetLongUrl "4fve9f") 2
               ++ repeat (Settle 0 Applied) 2) takenWorld))
  = Ok (ShortLinkResponseDto.make
          "4fve9f" "https://example.org/"
          ("http://localhost:3000" ++ "/" ++ "4fve9f")
          1690000000000 (3 + Z.of_nat 2)).
Proof.
  exact (proj1 (redirects_are_counted
                  "4fve9f" 2 takenWorld
                  (mkShortLink "https://example.org/" "4fve9f"
                               1690000000000 3 None)
                  eq_refl eq_refl)).
Defined.

(** ** Configuration at start-up *)

(** X13.  [validateEnvConfig] returns exactly when both
    [FIREBASE_SERVICE_ACCOUNT_KEY] and [LINK_SHORTENER_URL] are set to
    non-empty strings, and then the URL that [envConfig] hands to the
    service is the value of [LINK_SHORTENER_URL]: the localhost default
    is used only in an environment that the validation refuses.
    Otherwise it throws, and the message lists after its fixed prefix the
    names of exactly those of the two variables that are unset or
    empty. *)
Theorem validated_env_uses_configured_url (env : EnvConfig.ProcessEnv) :
  (EnvConfig.validateEnvConfig env = EnvConfig.Returned
   <-> Js.truthy (env "FIREBASE_SERVICE_ACCOUNT_KEY") = true
       /\ Js.truthy (env "LINK_SHORTENER_URL") = true)
  /\ (EnvConfig.validateEnvConfig env = EnvConfig.Returned ->
      env "LINK_SHORTENER_URL" = Some (EnvConfig.linkShortenerUrl env)
      /\ EnvConfig.linkShortenerUrl env <> "")
  /\ (forall message,
         EnvConfig.validateEnvConfig env = EnvConfig.Thrown message ->
         exists names,
           message
           = "Missing required environment variables: "
             ++ String.concat ", " names
           /\ forall name,
                In name names
                <-> In name ["FIREBASE_SERVICE_ACCOUNT_KEY";
                             "LINK_SHORTENER_URL"]
                    /\ Js.truthy (env name) = false).
Proof.
  assert (Hmissing :
            EnvConfig.missing env
            = ((if Js.truthy (env "FIREBASE_SERVICE_ACCOUNT_KEY")
                then [] else ["FIREBASE_SERVICE_ACCOUNT_KEY"])
               ++ (if Js.truthy (env "LINK_SHORTENER_URL")
                   then [] else ["LINK_SHORTENER_URL"]))%list).
  { unfold EnvConfig.missing, EnvConfig.required. cbn [filter snd].
    destruct (Js.truthy (env "FIREBASE_SERVICE_ACCOUNT_KEY")),
      (Js.truthy (env "LINK_SHORTENER_URL")); reflexivity. }
  unfold EnvConfig.validateEnvConfig. rewrite Hmissing.
  split; [|split].
  - destruct (Js.truthy (env "FIREBASE_SERVICE_ACCOUNT_KEY")),
      (Js.truthy (env "LINK_SHORTENER_URL")); cbn [app];
      split; intros H; try discriminate H; try (split; reflexivity);
      destruct H as [H1 H2]; discriminate.
  - intros H.
    assert (Ht : Js.truthy (env "LINK_SHORTENER_URL") = true).
    { destruct (Js.truthy (env "FIREBASE_SERVICE_ACCOUNT_KEY")),
        (Js.truthy (env "LINK_SHORTENER_URL")); cbn [app] in H;
        try discriminate H; reflexivity. }
    unfold EnvConfig.linkShortenerUrl.
    destruct (env "LINK_SHORTENER_URL") as [[|c v]|]; cbn in Ht;
      try discriminate Ht.
    cbn. split; [reflexivity | discriminate].
  - intros message H.
    exists ((if Js.truthy (env "FIREBASE_SERVICE_ACCOUNT_KEY")
             then [] else ["FIREBASE_SERVICE_ACCOUNT_KEY"])
            ++ (if Js.truthy (env "LINK_SHORTENER_URL")
                then [] else ["LINK_SHORTENER_URL"]))%list.
    split.
    + destruct (Js.truthy (env "FIREBASE_SERVICE_ACCOUNT_KEY")),
        (Js.truthy (env "LINK_SHORTENER_URL")); cbn [app] in H |- *;
        try discriminate H; inversion H; reflexivity.
    + intros name.
      destruct (Js.truthy (env "FIREBASE_SERVICE_ACCOUNT_KEY")) eqn:Hf,
        (Js.truthy (env "LINK_SHORTENER_URL")) eqn:Hu;
        cbn [app In]; intuition (subst; congruence).
Qed.

Lemma validated_env_uses_configured_url_witness :
  sampleEnv "LINK_SHORTENER_URL"
  = Some (EnvConfig.linkShortenerUrl sampleEnv)
  /\ EnvConfig.linkShortenerUrl sampleEnv <> "".
Proof.
  apply (proj1 (proj2 (validated_env_uses_configured_url sampleEnv))).
  reflexivity.
Defined.

(** ** The client-side validator *)

(** X14.  The client-side validator applies to the alias the rules of the
    server's DTO.  When it reports success it hands back the input
    unchanged and no error, and the server's validation can then object
    to the long URL only.  Conversely a request that the server's
    validation accepts passes the client-side validator as soon as its
    long URL is non-empty and passes the client's URL check.  On failure
    the validator returns a message and no data. *)
Theorem web_validation_matches_server
        (zodUrl isURL : string -> bool) (input : CreateShortLinkDto.t) :
  let result := WebValidators.validateCreateShortLink zodUrl input in
  (WebValidators.success result = true ->
   WebValidators.data result = Some input
   /\ WebValidators.error result = None
   /\ (isURL (CreateShortLinkDto.longUrl input) = true ->
       Validation.validateCreate isURL input = []))
  /\ (Validation.validateCreate isURL input = [] ->
      zodUrl (CreateShortLinkDto.longUrl input) = true ->
      CreateShortLinkDto.longUrl input <> "" ->
      WebValidators.success result = true)
  /\ (WebValidators.success result = false ->
      WebValidators.data result = None
      /\ exists message, WebValidators.error result = Some message).
Proof.
  cbv zeta.
  unfold WebValidators.validateCreateShortLink, WebValidators.issues,
    Validation.validateCreate, Validation.minLength, Validation.maxLength.
  assert (Hlen : CreateShortLinkDto.longUrl input <> "" ->
                 Nat.leb 1 (String.length (CreateShortLinkDto.longUrl input))
                 = true).
  { destruct (CreateShortLinkDto.longUrl input); [congruence | reflexivity]. }
  destruct (zodUrl (CreateShortLinkDto.longUrl input));
    destruct (Nat.leb 1 (String.length (CreateShortLinkDto.longUrl input)));
    destruct (isURL (CreateShortLinkDto.longUrl input));
    destruct (CreateShortLinkDto.customAlias input) as [alias|];
    try (destruct (Nat.leb 3 (String.length alias)),
           (Nat.leb (String.length alias) 50),
           (Validation.matchesAlias alias));
    cbn; repeat split; intros; try discriminate; try reflexivity;
    try congruence; try (eexists; reflexivity);
    try (specialize (Hlen ltac:(assumption)); discriminate).
Qed.

Lemma web_validation_matches_server_witness :
  Validation.validateCreate
    (fun _ => true)
    (CreateShortLinkDto.make "https://example.com/" (Some "my-link"))
  = [].
Proof.
  apply (proj1 (web_validation_matches_server
                  (fun _ => true) (fun _ => true)
                  (CreateShortLinkDto.make "https://example.com/"
                                           (Some "my-link")))).
  - reflexivity.
  - reflexivity.
Defined.

(** ** What a lookup answers *)

Lemma resolve_some_in (code : string) (w : World) (r : ShortLink) :
  resolve code w = Some r ->
  shortCode r = code /\ exists d, In d (docs w) /\ data d = r.
Proof.
  unfold resolve, Db.matching. intros H.
  destruct (filter (fun d => String.eqb (shortCode (data d)) code) (docs w))
    as [|d rest] eqn:Hf; [discriminate|].
  inversion H. subst r.
  assert (Hin : In d (filter (fun d0 => String.eqb (shortCode (data d0)) code)
                             (docs w)))
    by (rewrite Hf; left; reflexivity).
  apply filter_In in Hin. destruct Hin as [Hd Hc].
  apply String.eqb_eq in Hc. split; [exact Hc|]. exists d. auto.
Qed.

(** X15.  A lookup answers for the code it was asked about.  A summary
    returned by [getShortLinkDetails] carries the requested code, the
    short URL made of the base URL, a slash and that code, and the long
    URL, creation time and click count of a stored document with that
    code; a long URL returned by [getLongUrl] is the long URL of a stored
    document with that code. *)
Theorem lookups_answer_for_the_requested_code (code : string) (w : World) :
  (forall s,
      fst (getShortLinkDetails code w) = Ok s ->
      ShortLinkResponseDto.shortCode s = code
      /\ ShortLinkResponseDto.shortUrl s = baseUrl w ++ "/" ++ code
      /\ exists d,
           In d (docs w)
           /\ shortCode (data d) = code
           /\ longUrl (data d) = ShortLinkResponseDto.longUrl s
           /\ createdAt (data d) = ShortLinkResponseDto.createdAt s
           /\ clicks (data d) = ShortLinkResponseDto.clicks s)
  /\ (forall target,
         fst (getLongUrl code w) = Ok target ->
         exists d,
           In d (docs w)
           /\ shortCode (data d) = code
           /\ longUrl (data d) = target).
Proof.
  rewrite getShortLinkDetails_run, getLongUrl_run.
  destruct (resolve code w) as [r|] eqn:Hr; cbn [fst];
    [|split; intros x H; discriminate H].
  destruct (resolve_some_in code w r Hr) as (Hc & d & Hd & Hdata).
  split.
  - intros s H. inversion H. cbn. rewrite Hc.
    split; [reflexivity|]. split; [reflexivity|].
    exists d. subst r. repeat split; auto.
  - intros target H. inversion H. exists d. subst r. auto.
Qed.

Lemma lookups_answer_for_the_requested_code_witness :
  exists d,
    In d (docs takenWorld)
    /\ shortCode (data d) = "4fve9f"
    /\ longUrl (data d) = "https://example.org/".
Proof.
  apply (proj2 (lookups_answer_for_the_requested_code "4fve9f" takenWorld)).
  reflexivity.
Defined.

(** ** Pending updates *)

Lemma resolve_survives_step (op : Op) (w : World) (code : string) :
  resolve code w <> None -> resolve code (step op w) <> None.
Proof.
  unfold resolve.
  destruct (step_cases op w) as [-> | [(r & -> & _) | (id & ->)]].
  - auto.
  - rewrite matching_app.
    destruct (Db.matching code (docs w)); [congruence | discriminate].
  - rewrite matching_incrementAt.
    destruct (Db.matching code (docs w)); [congruence | discriminate].
Qed.

Lemma removeAt_In {A : Type} (i : nat) (l : list A) (x : A) :
  In x (EventLoop.removeAt i l) -> In x l.
Proof.
  revert i. induction l as [|a l IH]; intros i; [destruct i; cbn; tauto|].
  destruct i as [|i]; cbn; [tauto|].
  intros [H | H]; [left; exact H | right; apply (IH i H)].
Qed.

Lemma step_pending (op : Op) (w : World) (t : Task) :
  In t (pending (step op w)) ->
  In t (pending w)
  \/ exists code, t = IncrementClicksTask code /\ resolve code w <> None.
Proof.
  destruct op as [dto ip | code | code | o code | i o]; cbn [step].
  - rewrite createShortLink_run.
    pose proof (candidateCode_frame dto w) as (_ & _ & _ & _ & _ & Hp & _).
    destruct (candidateCode dto w) as [[code|e] w1]; cbn [snd] in Hp.
    + destruct (resolve code w1); cbn; rewrite Hp; auto.
    + cbn. rewrite Hp. auto.
  - rewrite getLongUrl_run.
    destruct (resolve code w) eqn:Hr; cbn; [|auto].
    intros H. apply in_app_iff in H. destruct H as [H | [<- | []]];
      [auto|]. right. exists code. split; [reflexivity | congruence].
  - rewrite getShortLinkDetails_run. destruct (resolve code w); cbn; auto.
  - rewrite incrementClicks_run.
    destruct (Db.matching code (docs w)); [cbn; auto|].
    destruct o; cbn; auto.
  - unfold EventLoop.settle.
    destruct (nth_error (pending w) i) as [[code]|]; [|auto].
    rewrite runTask_run. cbn [docs set_pending].
    destruct (Db.matching code (docs w)); [|destruct o]; cbn;
      intros H; left; apply (removeAt_In i _ _ H).
Qed.

(** X16.  A detached update always finds its record when it settles.
    Tasks are detached only for a code that resolves, and a code that
    resolves keeps resolving, records being never removed; so if every
    pending task is for a code that resolves, this remains so after any
    sequence of calls and settled tasks. *)
Theorem pending_updates_find_their_record (ops : list Op) (w : World) :
  pendingResolve w -> pendingResolve (run ops w).
Proof.
  revert w. induction ops as [|op ops IH]; intros w Hw; [exact Hw|].
  cbn [run]. apply IH. unfold pendingResolve in *.
  rewrite Forall_forall in Hw |- *. intros t Ht.
  destruct (step_pending op w t Ht) as [Hold | (code & -> & Hres)].
  - specialize (Hw t Hold). destruct t as [code].
    apply resolve_survives_step, Hw.
  - apply resolve_survives_step, Hres.
Qed.

Lemma pending_updates_find_their_record_witness :
  pendingResolve
    (run [CallGetLongUrl "4fve9f"; CallGetLongUrl "nobody";
          CallCreateShortLink
            (CreateShortLinkDto.make "https://example.com/" (Some "my-link"))
            None;
          CallGetLongUrl "my-link"; Settle 0 (Rejected "UNAVAILABLE")]
         takenWorld).
Proof.
  apply (pending_updates_find_their_record _ takenWorld).
  constructor.
Defined.


(** ** A taken alias stays taken *)

Lemma resolve_survives_run (ops : list Op) (w : World) (code : string) :
  resolve code w <> None -> resolve code (run ops w) <> None.
Proof.
  revert w. induction ops as [|op ops IH]; intros w H; [exact H|].
  cbn [run]. apply IH, resolve_survives_step, H.
Qed.

(** X2.  Once [createShortLink] has succeeded with a non-empty custom
    alias, every later [createShortLink] with the same alias, after any
    sequence of service calls, [incrementClicks] calls and settled tasks,
    throws the [ConflictException] naming that alias, having issued only
    its query. *)
Theorem createShortLink_same_alias_again
        (dto1 dto2 : CreateShortLinkDto.t) (ip1 ip2 : option string)
        (w w1 : World) (alias : string) (s : ShortLinkResponseDto.t)
        (ops : list Op) :
  CreateShortLinkDto.customAlias dto1 = Some alias ->
  CreateShortLinkDto.customAlias dto2 = Some alias ->
  alias <> "" ->
  createShortLink dto1 ip1 w = (Ok s, w1) ->
  createShortLink dto2 ip2 (run ops w1)
  = (Err (ConflictException (conflictMessage alias)),
     record_op (OpQuery alias) (run ops w1)).
Proof.
  intros H1 H2 Hne Hok.
  assert (Ht : Js.truthy (Some alias) = true)
    by (destruct alias; [congruence | reflexivity]).
  apply createShortLink_ok in Hok.
  destruct Hok as (code & r & Hcode & _ & _ & _ & _ & _ & _ & _ & _ & Hres).
  rewrite (candidateCode_truthy dto1 w alias H1 Ht) in Hcode.
  inversion Hcode. subst code.
  assert (Hlater : resolve alias (run ops w1) <> None)
    by (apply resolve_survives_run; congruence).
  rewrite createShortLink_run,
    (candidateCode_truthy dto2 (run ops w1) alias H2 Ht).
  destruct (resolve alias (run ops w1)); [reflexivity | congruence].
Qed.

Lemma createShortLink_same_alias_again_witness :
  fst (createShortLink
         (CreateShortLinkDto.make "https://example.net/" (Some "my-link"))
         None
         (run [CallGetLongUrl "my-link"; Settle 0 Applied;
               CallCreateShortLink
                 (CreateShortLinkDto.make "https://example.org/x" None)
                 None]
              (snd (createShortLink
                      (CreateShortLinkDto.make "https://example.com/"
                                               (Some "my-link"))
                      None emptyWorld))))
  = Err (ConflictException (conflictMessage "my-link")).
Proof.
  exact (f_equal fst
           (createShortLink_same_alias_again
              (CreateShortLinkDto.make "https://example.com/"
                                       (Some "my-link"))
              (CreateShortLinkDto.make "https://example.net/"
                                       (Some "my-link"))
              None None emptyWorld
              (snd (createShortLink
                      (CreateShortLinkDto.make "https://example.com/"
                                               (Some "my-link"))
                      None emptyWorld))
              "my-link"
              (ShortLinkResponseDto.make
                 "my-link" "https://example.com/"
                 "http://localhost:3000/my-link" 1700000000000 0)
              [CallGetLongUrl "my-link"; Settle 0 Applied;
               CallCreateShortLink
                 (CreateShortLinkDto.make "https://example.org/x" None)
                 None]
              eq_refl eq_refl ltac:(discriminate) eq_refl)).
Defined.
